(** * VALScoreboardTracker: the batch aggregation pipeline

    A shallow embedding of [VALScoreboardTracker.py] and [config_parser.py].
    The program walks a folder of scoreboard screenshots, asks the
    [ocr_library] for the rows of each one, keeps the rows of team 1 and
    appends them to [scoreboard.csv], which is finally copied to the
    clipboard.

    Python [str] values are Rocq strings (the bytes of their UTF-8 form),
    Python lists are Rocq lists, and [config.ini] is held as the sections and
    options a [ConfigParser] reads from it.  Code that raises runs in a state
    and exception monad over the files the program touches and the console. *)

From Stdlib Require Import ZArith Ascii String.
From stdpp Require Import base strings list gmap pretty.

(** ** Exceptions *)

(** The subclasses of [Exception] the run can meet.  An [IndexError] carries
    the source line of the subscript that raised it, as its traceback does;
    its message is the same at every line. *)
Inductive exn :=
  | IndexError (line : nat)
  | ParsingError                  (* and the other errors of configparser *)
  | NoSectionError (section : string)
  | NoOptionError (option section : string)
  | JSONDecodeError
  | FileNotFoundError (path : string)
  | PermissionError (path : string)
  | LibraryError (name message : string) (* raised inside ocr_library *)
  | EOFError                      (* input() at the end of standard input *)
  | UnicodeDecodeError            (* file.read() on bytes that are not UTF-8 *)
  | PyperclipException.           (* pyperclip.copy without a clipboard *)

Notation "'result' A" := (exn + A)%type (at level 10, A at level 9, only parsing).
Notation "'Ok' x" := (inr x) (at level 10, x at level 9, only parsing).
Notation "'Raise' e" := (inl e) (at level 10, e at level 9, only parsing).

(** ** JSON values and [json.loads] *)

#[local] Set Warnings "-register-all".

(** What [json.loads] returns: [None], [bool], [int], [float] (kept as its
    literal), [str], [list] and [dict] (its pairs in the order of the text). *)
Inductive json :=
  | JNull
  | JBool (b : bool)
  | JInt (n : Z)
  | JFloat (literal : string)
  | JString (s : string)
  | JArray (items : list json)
  | JObject (members : list (string * json)).

Module Json.

Definition quote : ascii := "034"%char.
Definition backslash : ascii := "092"%char.

(** [WHITESPACE]: blank, tab, line feed and carriage return. *)
Definition is_ws (c : ascii) : bool :=
  match c with
  | " "%char | "009"%char | "010"%char | "013"%char => true
  | _ => false
  end.

Fixpoint skip_ws (s : string) : string :=
  match s with
  | String c r => if is_ws c then skip_ws r else s
  | EmptyString => s
  end.

Definition is_digit (c : ascii) : bool :=
  (48 <=? nat_of_ascii c)%nat && (nat_of_ascii c <=? 57)%nat.

Fixpoint span_digits (s : string) : string * string :=
  match s with
  | String c r =>
      if is_digit c
      then let '(d, r') := span_digits r in (String c d, r')
      else (EmptyString, s)
  | EmptyString => (EmptyString, EmptyString)
  end.

Fixpoint digits_value (acc : Z) (s : string) : Z :=
  match s with
  | String c r => digits_value (10 * acc + (Z.of_nat (nat_of_ascii c) - 48)) r
  | EmptyString => acc
  end.

(** [NUMBER_RE]: an optional minus sign, then a zero or a digit string that
    does not start with zero; then, each optional, a dot with digits and an
    exponent mark with an optional sign and digits.  The three functions
    return the groups (empty when absent) and the text after the match. *)
Definition match_integer (s : string) : option (bool * string * string) :=
  let '(neg, s1) :=
    match s with
    | String "-"%char r => (true, r)
    | _ => (false, s)
    end in
  match s1 with
  | String "0"%char r => Some (neg, "0", r)
  | String c _ =>
      if is_digit c
      then let '(d, r) := span_digits s1 in Some (neg, d, r)
      else None
  | EmptyString => None
  end.

Definition match_frac (s : string) : string * string :=
  match s with
  | String "."%char r =>
      match span_digits r with
      | (EmptyString, _) => (EmptyString, s)
      | (d, r') => (String "."%char d, r')
      end
  | _ => (EmptyString, s)
  end.

Definition match_exp (s : string) : string * string :=
  match s with
  | String e r =>
      if bool_decide (e = "e"%char ∨ e = "E"%char) then
        let '(sign, r1) :=
          match r with
          | String c r1 =>
              if bool_decide (c = "-"%char ∨ c = "+"%char)
              then (String c EmptyString, r1) else (EmptyString, r)
          | EmptyString => (EmptyString, r)
          end in
        match span_digits r1 with
        | (EmptyString, _) => (EmptyString, s)
        | (d, r') => (String e (sign +:+ d), r')
        end
      else (EmptyString, s)
  | EmptyString => (EmptyString, s)
  end.

Definition match_number (s : string) : option (json * string) :=
  '(neg, d, r) ← match_integer s;
  let '(frac, r1) := match_frac r in
  let '(exp, r2) := match_exp r1 in
  let sign := if (neg : bool) then "-" else "" in
  match frac, exp with
  | EmptyString, EmptyString =>
      let v := digits_value 0 d in
      Some (JInt (if neg then - v else v)%Z, r2)
  | _, _ => Some (JFloat (sign +:+ d +:+ frac +:+ exp), r2)
  end.

(** Hexadecimal digits of a [\uXXXX] escape. *)
Definition hex_digit (c : ascii) : option N :=
  let n := N_of_ascii c in
  if (48 <=? n)%N && (n <=? 57)%N then Some (n - 48)%N
  else if (65 <=? n)%N && (n <=? 70)%N then Some (n - 55)%N
  else if (97 <=? n)%N && (n <=? 102)%N then Some (n - 87)%N
  else None.

Definition hex4 (s : string) : option (N * string) :=
  match s with
  | String a (String b (String c (String d r))) =>
      a ← hex_digit a; b ← hex_digit b; c ← hex_digit c; d ← hex_digit d;
      Some (((a * 16 + b) * 16 + c) * 16 + d, r)%N
  | _ => None
  end.

(** The UTF-8 bytes of a code point (a lone surrogate keeps its three-byte
    form). *)
Definition utf8 (cp : N) : string :=
  let byte (n : N) := String (ascii_of_N n) EmptyString in
  let cont (n : N) := byte (128 + N.land n 63)%N in
  if (cp <? 128)%N then byte cp
  else if (cp <? 2048)%N then
    byte (192 + N.shiftr cp 6)%N +:+ cont cp
  else if (cp <? 65536)%N then
    byte (224 + N.shiftr cp 12)%N +:+ cont (N.shiftr cp 6) +:+ cont cp
  else
    byte (240 + N.shiftr cp 18)%N +:+ cont (N.shiftr cp 12)
      +:+ cont (N.shiftr cp 6) +:+ cont cp.

Definition is_high_surrogate (cp : N) : bool := (55296 <=? cp)%N && (cp <=? 56319)%N.
Definition is_low_surrogate (cp : N) : bool := (56320 <=? cp)%N && (cp <=? 57343)%N.

(** A [\uXXXX] escape, [s] starting after the [u]; a high surrogate followed
    by an escaped low surrogate is joined with it. *)
Definition scan_unicode (s : string) : option (string * string) :=
  '(cp, r) ← hex4 s;
  if is_high_surrogate cp then
    match r with
    | String b (String "u"%char r1) =>
        if bool_decide (b = backslash) then
          '(cp2, r2) ← hex4 r1;
          if is_low_surrogate cp2
          then Some (utf8 (65536 + (cp - 55296) * 1024 + (cp2 - 56320))%N, r2)
          else Some (utf8 cp, r)
        else Some (utf8 cp, r)
    | _ => Some (utf8 cp, r)
    end
  else Some (utf8 cp, r).

Definition simple_escape (c : ascii) : option ascii :=
  match c with
  | "034"%char => Some "034"%char
  | "092"%char => Some "092"%char
  | "/"%char => Some "/"%char
  | "b"%char => Some "008"%char
  | "f"%char => Some "012"%char
  | "n"%char => Some "010"%char
  | "r"%char => Some "013"%char
  | "t"%char => Some "009"%char
  | _ => None
  end.

(** [scanstring] in strict mode, [s] starting after the opening quote:
    the decoded string and the text after the closing quote. *)
Fixpoint scanstring (fuel : nat) (s : string) : option (string * string) :=
  match fuel with
  | O => None
  | S fuel =>
      match s with
      | EmptyString => None
      | String c r =>
          if bool_decide (c = quote) then Some (EmptyString, r)
          else if bool_decide (c = backslash) then
            match r with
            | String "u"%char r1 =>
                '(chunk, r2) ← scan_unicode r1;
                '(str, r3) ← scanstring fuel r2;
                Some (chunk +:+ str, r3)
            | String e r1 =>
                e' ← simple_escape e;
                '(str, r2) ← scanstring fuel r1;
                Some (String e' str, r2)
            | EmptyString => None
            end
          else if (nat_of_ascii c <? 32)%nat then None
          else
            '(str, r1) ← scanstring fuel r;
            Some (String c str, r1)
      end
  end.

Definition parse_string (s : string) : option (string * string) :=
  scanstring (S (String.length s)) s.

Section containers.
Variable scan : string → option (json * string).

(** The loop of [JSONArray], [s] at the first item. *)
Fixpoint array_items (fuel : nat) (s : string) (acc : list json)
  : option (json * string) :=
  match fuel with
  | O => None
  | S fuel =>
      '(v, r) ← scan s;
      match skip_ws r with
      | String "]"%char r' => Some (JArray (acc ++ [v]), r')
      | String ","%char r' => array_items fuel (skip_ws r') (acc ++ [v])
      | _ => None
      end
  end.

Definition parse_array (fuel : nat) (s : string) : option (json * string) :=
  match skip_ws s with
  | String "]"%char r => Some (JArray [], r)
  | s' => array_items fuel s' []
  end.

(** The loop of [JSONObject], [s] at the quote that opens a key. *)
Fixpoint object_members (fuel : nat) (s : string) (acc : list (string * json))
  : option (json * string) :=
  match fuel with
  | O => None
  | S fuel =>
      match s with
      | String "034"%char r =>
          '(key, r1) ← parse_string r;
          match skip_ws r1 with
          | String ":"%char r2 =>
              '(v, r3) ← scan (skip_ws r2);
              match skip_ws r3 with
              | String "}"%char r' => Some (JObject (acc ++ [(key, v)]), r')
              | String ","%char r' =>
                  object_members fuel (skip_ws r') (acc ++ [(key, v)])
              | _ => None
              end
          | _ => None
          end
      | _ => None
      end
  end.

Definition parse_object (fuel : nat) (s : string) : option (json * string) :=
  match skip_ws s with
  | String "}"%char r => Some (JObject [], r)
  | s' => object_members fuel s' []
  end.
End containers.

Definition strip_prefix (p s : string) : option string :=
  if String.prefix p s then Some (String.substring (String.length p) (String.length s - String.length p) s)
  else None.

(** [scan_once]: one value at the head of [s], and the text after it. *)
Fixpoint scan_once (fuel : nat) (s : string) : option (json * string) :=
  match fuel with
  | O => None
  | S fuel =>
      match s with
      | String "034"%char r => '(str, r') ← parse_string r; Some (JString str, r')
      | String "{"%char r => parse_object (scan_once fuel) fuel r
      | String "["%char r => parse_array (scan_once fuel) fuel r
      | _ =>
          match strip_prefix "null" s, strip_prefix "true" s, strip_prefix "false" s with
          | Some r, _, _ => Some (JNull, r)
          | _, Some r, _ => Some (JBool true, r)
          | _, _, Some r => Some (JBool false, r)
          | _, _, _ =>
              match match_number s with
              | Some res => Some res
              | None =>
                  match strip_prefix "NaN" s, strip_prefix "Infinity" s,
                        strip_prefix "-Infinity" s with
                  | Some r, _, _ => Some (JFloat "NaN", r)
                  | _, Some r, _ => Some (JFloat "Infinity", r)
                  | _, _, Some r => Some (JFloat "-Infinity", r)
                  | _, _, _ => None
                  end
              end
          end
      end
  end.

(** [json.loads(s)]: one value between optional whitespace, nothing after. *)
Definition loads (s : string) : result json :=
  match scan_once (S (String.length s)) (skip_ws s) with
  | Some (v, r) =>
      match skip_ws r with
      | EmptyString => Ok v
      | _ => Raise JSONDecodeError
      end
  | None => Raise JSONDecodeError
  end.

End Json.

(** A string between double quotes, for JSON texts. *)
Definition quoted (s : string) : string :=
  String Json.quote (s +:+ String Json.quote EmptyString).

(** ** Python lists and strings *)

#[export] Instance result_ret : MRet (sum exn) := λ A x, Ok x.
#[export] Instance result_bind : MBind (sum exn) := λ A B f m,
  match m with
  | inl e => Raise e
  | inr x => f x
  end.

(** [l[i]] for [0 <= i]; [line] is the source line of the subscript. *)
Definition index {A} (line : nat) (l : list A) (i : nat) : result A :=
  match l !! i with
  | Some x => Ok x
  | None => Raise (IndexError line)
  end.

(** [str.lower] on the ASCII letters; the other bytes are kept.  No character
    outside ASCII lowers to a full stop or to one of p, n, g, so the test
    [f.lower().endswith(".png")] is decided by these. *)
Definition lower_char (c : ascii) : ascii :=
  let n := nat_of_ascii c in
  if (65 <=? n)%nat && (n <=? 90)%nat then ascii_of_nat (n + 32) else c.

Fixpoint lower (s : string) : string :=
  match s with
  | String c r => String (lower_char c) (lower r)
  | EmptyString => EmptyString
  end.

Definition endswith (s suffix : string) : bool :=
  let n := String.length s in
  let k := String.length suffix in
  (k <=? n)%nat && String.eqb (String.substring (n - k) k s) suffix.

(** ** The files of a run and the console *)

(** What a [ConfigParser] holds after [read]: the [DEFAULT] options and the
    options of each section, with the values [get] returns for them (after
    interpolation). *)
Record ConfigParser := {
  defaults : gmap string string;
  sections : gmap string (gmap string string);
}.

(** The text of an existing [config.ini]: one that [configparser] rejects
    (no section header, a duplicate, a value it cannot interpolate), or the
    sections it holds. *)
Inductive ini_file :=
  | Unparsable
  | Parsable (c : ConfigParser).

(** The rows of a CSV file, one list of fields per line. *)
Definition table := list (list string).

(** [temp_headshot.png]: absent, an ordinary file, or an entry that
    [os.remove] refuses (a directory, a file another process holds open). *)
Inductive temp_entry :=
  | TempAbsent
  | TempFile
  | TempLocked.

Inductive event :=
  | Status (message : string)   (* print_status(message) *)
  | ErrorOccurred (e : exn)     (* print_status(f"Error occurred: {str(e)}") *)
  | PressEnter.                 (* the prompt of wait_for_user() *)

(** The machine of a run: the files [main] looks at, the clipboard and the
    console, and the answers of the machine to the calls of [main] that it
    can refuse: the removal of [scoreboard.csv] (line 118), its reading
    (lines 185-186), the copy to the clipboard (line 188), and [input], which
    finds as many lines as standard input holds. *)
Record world := {
  tesseract_dir : bool;              (* Tesseract-OCR exists *)
  tesseract_exe : bool;              (* Tesseract-OCR/tesseract.exe exists *)
  eng_traineddata : bool;            (* Tesseract-OCR/tessdata/eng.traineddata exists *)
  config_ini : option ini_file;      (* config.ini *)
  scoreboard_csv : option table;     (* scoreboard.csv, when it exists *)
  screenshots : option (list string);(* os.listdir of screenshots, when a directory *)
  temp_headshot : temp_entry;        (* temp_headshot.png *)
  clipboard : option table;          (* the text given to pyperclip.copy, if any *)
  console : list event;              (* what was printed, oldest first *)
  remove_fault : option exn;         (* raised by os.remove on scoreboard.csv, if any *)
  read_fault : option exn;           (* raised on reading scoreboard.csv, if any *)
  copy_fault : option exn;           (* raised by pyperclip.copy, if any *)
  stdin : nat;                       (* lines of standard input before its end *)
}.

Definition set_config_ini (f : option ini_file) (w : world) : world :=
  {| tesseract_dir := tesseract_dir w; tesseract_exe := tesseract_exe w;
     eng_traineddata := eng_traineddata w; config_ini := f;
     scoreboard_csv := scoreboard_csv w; screenshots := screenshots w;
     temp_headshot := temp_headshot w; clipboard := clipboard w;
     console := console w;
     remove_fault := remove_fault w; read_fault := read_fault w;
     copy_fault := copy_fault w; stdin := stdin w |}.

Definition set_scoreboard_csv (t : option table) (w : world) : world :=
  {| tesseract_dir := tesseract_dir w; tesseract_exe := tesseract_exe w;
     eng_traineddata := eng_traineddata w; config_ini := config_ini w;
     scoreboard_csv := t; screenshots := screenshots w;
     temp_headshot := temp_headshot w; clipboard := clipboard w;
     console := console w;
     remove_fault := remove_fault w; read_fault := read_fault w;
     copy_fault := copy_fault w; stdin := stdin w |}.

Definition set_temp_headshot (t : temp_entry) (w : world) : world :=
  {| tesseract_dir := tesseract_dir w; tesseract_exe := tesseract_exe w;
     eng_traineddata := eng_traineddata w; config_ini := config_ini w;
     scoreboard_csv := scoreboard_csv w; screenshots := screenshots w;
     temp_headshot := t; clipboard := clipboard w;
     console := console w;
     remove_fault := remove_fault w; read_fault := read_fault w;
     copy_fault := copy_fault w; stdin := stdin w |}.

Definition set_clipboard (t : option table) (w : world) : world :=
  {| tesseract_dir := tesseract_dir w; tesseract_exe := tesseract_exe w;
     eng_traineddata := eng_traineddata w; config_ini := config_ini w;
     scoreboard_csv := scoreboard_csv w; screenshots := screenshots w;
     temp_headshot := temp_headshot w; clipboard := t;
     console := console w;
     remove_fault := remove_fault w; read_fault := read_fault w;
     copy_fault := copy_fault w; stdin := stdin w |}.

Definition set_console (l : list event) (w : world) : world :=
  {| tesseract_dir := tesseract_dir w; tesseract_exe := tesseract_exe w;
     eng_traineddata := eng_traineddata w; config_ini := config_ini w;
     scoreboard_csv := scoreboard_csv w; screenshots := screenshots w;
     temp_headshot := temp_headshot w; clipboard := clipboard w;
     console := l;
     remove_fault := remove_fault w; read_fault := read_fault w;
     copy_fault := copy_fault w; stdin := stdin w |}.

Definition set_stdin (lines : nat) (w : world) : world :=
  {| tesseract_dir := tesseract_dir w; tesseract_exe := tesseract_exe w;
     eng_traineddata := eng_traineddata w; config_ini := config_ini w;
     scoreboard_csv := scoreboard_csv w; screenshots := screenshots w;
     temp_headshot := temp_headshot w; clipboard := clipboard w;
     console := console w;
     remove_fault := remove_fault w; read_fault := read_fault w;
     copy_fault := copy_fault w; stdin := lines |}.

(** ** The monad of the run: state and exceptions *)

Definition M (A : Type) : Type := world → result A * world.

#[export] Instance M_ret : MRet M := λ A x w, (Ok x, w).
#[export] Instance M_bind : MBind M := λ A B f m w,
  match m w with
  | (inl e, w') => (Raise e, w')
  | (inr x, w') => f x w'
  end.

Definition raise {A} (e : exn) : M A := λ w, (Raise e, w).
Definition lift {A} (r : result A) : M A := λ w, (r, w).
Definition get {A} (f : world → A) : M A := λ w, (Ok (f w), w).
Definition modify (f : world → world) : M unit := λ w, (Ok tt, f w).

Definition emit (ev : event) : M unit :=
  modify (λ w, set_console (console w ++ [ev]) w).

Definition print_status (message : string) : M unit := emit (Status message).

(** [input] prints its prompt and reads a line: at the end of standard input
    it raises [EOFError]. *)
Definition wait_for_user : M unit :=
  emit PressEnter;;
  lines ← get stdin;
  match lines with
  | 0 => raise EOFError
  | S rest => modify (set_stdin rest)
  end.

(** ** config_parser.py *)

(** [config.read(config_path)]: a missing file is skipped and leaves the
    parser empty. *)
Definition ConfigParser_read : M ConfigParser :=
  f ← get config_ini;
  match f with
  | None => mret {| defaults := ∅; sections := ∅ |}
  | Some Unparsable => raise ParsingError
  | Some (Parsable c) => mret c
  end.

(** [config.get(section, option)]: the option of the section, else of
    [DEFAULT]. *)
Definition ConfigParser_get (c : ConfigParser) (section option : string)
  : result string :=
  match sections c !! section with
  | None =>
      if bool_decide (section = "DEFAULT") then
        match defaults c !! lower option with
        | Some v => Ok v
        | None => Raise (NoOptionError (lower option) section)
        end
      else Raise (NoSectionError section)
  | Some d =>
      match d !! lower option, defaults c !! lower option with
      | Some v, _ => Ok v
      | None, Some v => Ok v
      | None, None => Raise (NoOptionError (lower option) section)
      end
  end.

(** The dictionary [read_config] returns. *)
Record config_values := { maps : json }.

Definition read_config : M config_values :=
  config ← ConfigParser_read;
  text ← lift (ConfigParser_get config "General" "maps");
  maps ← lift (Json.loads text);
  mret {| maps := maps |}.

(** The file [create_config] writes: the values of the dictionary go through
    [str], the keys through [optionxform]. *)
Definition default_config : ConfigParser :=
  {| defaults := ∅;
     sections := {[ "General" :=
       {[ "team" := "NOVO"; "players" := "[]";
          "teamsorting" := "false"; "maps" := "[]" ]} ]} |}.

Definition create_config : M config_values :=
  modify (set_config_ini (Some (Parsable default_config)));;
  read_config.

(** ** What the run takes from outside *)

(** The functions of [ocr_library.functions] that [main] calls are not among
    the sources: they are parameters of the run, each returning a value or
    raising, and none touching the files of the model ([write_csv], below, is
    the one that writes).  With them come the two readings of the machine
    that are not files of the model: the image [cv2.imread] loads for a file
    of the screenshot folder ([true] for [IMREAD_GRAYSCALE]), and the date
    [datetime.now().strftime("%d/%m/%Y")] shows while that file is
    processed. *)
Class Externals := {
  image : Type;
  cell_images : Type;
  headshot_images : Type;
  imread : string → bool → image;
  current_date : string → string;
  find_map_name : image → json → result string;
  find_tables : image → image → result (image * image);
  extract_cell_images_from_table :
    image → image → result (cell_images * headshot_images);
  identify_agents : headshot_images → result (list string);
  read_table_rows : cell_images → headshot_images → result table;
}.

(** Modelled from the spec: [srf.write_csv] is not among the sources.  It is
    the Scoreboard Store's [append], which persists the rows after the
    currently stored content; the artifact is created when there is none. *)
Definition write_csv (rows : table) : M unit :=
  modify (λ w, set_scoreboard_csv (Some (default [] (scoreboard_csv w) ++ rows)) w).

(** Modelled from the spec: the output artifact is delimited text, one line
    per row, the fields separated by commas. *)
Definition csv_line (row : list string) : string := String.concat "," row.

(** ** VALScoreboardTracker.py *)

Definition verify_tesseract_files : M bool :=
  exe ← get tesseract_exe;
  if negb exe then mret false else
  data ← get eng_traineddata;
  if negb data then mret false else
  mret true.

Definition setup_tesseract : M bool :=
  print_status "Setting up Tesseract OCR...";;
  dir ← get tesseract_dir;
  if negb dir then mret false else
  files ← verify_tesseract_files;
  if negb files then mret false else
  mret true.

(** Lines 150-158: the loop over [enumerate(output)], [i] the running index
    and [merged_output] the list built so far. *)
Fixpoint merge (current_date map_name : string) (agents : list string)
    (i : nat) (output merged_output : table) : result table :=
  match output with
  | [] => Ok merged_output
  | row :: output' =>
      team ← index 153 row 0;
      let player_data := drop 1 row in
      agent ← index 157 agents i;
      let merged_row := [current_date; team; map_name; agent] ++ player_data in
      merge current_date map_name agents (S i) output' (merged_output ++ [merged_row])
  end.

(** Line 162: [[row for row in merged_output if row[1] == 'team1']]. *)
Fixpoint filter_team1 (merged_output : table) : result table :=
  match merged_output with
  | [] => Ok []
  | row :: rest =>
      team ← index 162 row 1;
      kept ← filter_team1 rest;
      Ok (if bool_decide (team = "team1") then row :: kept else kept)
  end.

(** Line 170: [[[row[0], row[2], row[3]] + row[4:] for row in filtered_output]]. *)
Definition clean_row (row : list string) : result (list string) :=
  date ← index 170 row 0;
  map_name ← index 170 row 2;
  agent ← index 170 row 3;
  Ok ([date; map_name; agent] ++ drop 4 row).

Fixpoint clean (filtered_output : table) : result table :=
  match filtered_output with
  | [] => Ok []
  | row :: rest =>
      row' ← clean_row row;
      rest' ← clean rest;
      Ok (row' :: rest')
  end.

(** Line 122: [[f for f in os.listdir(screenshot_folder)
    if f.lower().endswith(".png")]]. *)
Definition png_files (listing : list string) : list string :=
  filter (λ f, endswith (lower f) ".png") listing.

Section run.
Context `{Externals}.

(** Lines 126-173: the body of the loop over the screenshots. *)
Definition process_screenshot (maps : json) (filename : string) : M unit :=
  print_status ("Processing screenshot: " +:+ filename);;
  let image := imread filename true in
  let image_colored := imread filename false in
  print_status "Detecting map...";;
  map_name ← lift (find_map_name image maps);
  print_status ("Map detected: " +:+ map_name);;
  print_status "Processing scoreboard table...";;
  '(image, image_colored) ← lift (find_tables image image_colored);
  print_status "Extracting cell information...";;
  '(cell_images_rows, headshots_images_rows) ←
    lift (extract_cell_images_from_table image image_colored);
  print_status "Identifying agents...";;
  agents ← lift (identify_agents headshots_images_rows);
  print_status "Reading table data...";;
  output ← lift (read_table_rows cell_images_rows headshots_images_rows);
  let current_date := current_date filename in
  print_status "Merging data...";;
  merged_output ← lift (merge current_date map_name agents 0 output []);
  print_status "Filtering team1 data...";;
  filtered_output ← lift (filter_team1 merged_output);
  match filtered_output with
  | [] => print_status "Warning: No team1 data found in this screenshot"
  | _ =>
      print_status "Cleaning output format...";;
      clean_output ← lift (clean filtered_output);
      write_csv clean_output;;
      print_status ("Data written to CSV for " +:+ filename)
  end.

(** Line 125: [for filename in screenshots]. *)
Fixpoint for_screenshots (maps : json) (screenshots : list string) : M unit :=
  match screenshots with
  | [] => mret tt
  | filename :: rest =>
      process_screenshot maps filename;;
      for_screenshots maps rest
  end.

(** Lines 179-191, after the loop: the removal of the temporary file under
    its test of existence, then [open] and [read], which raise for a missing
    or an unreadable store, and [pyperclip.copy].  None of them is guarded by
    a handler of its own. *)
Definition finish : M unit :=
  print_status "Cleaning up temporary files...";;
  temp ← get temp_headshot;
  match temp with
  | TempAbsent => mret tt
  | TempFile =>
      modify (set_temp_headshot TempAbsent);;
      print_status "Temporary files cleaned up"
  | TempLocked => raise (PermissionError "temp_headshot.png")
  end;;
  print_status "Reading final scoreboard data...";;
  file ← get scoreboard_csv;
  match file with
  | None => raise (FileNotFoundError "scoreboard.csv")
  | Some scoreboard_data =>
      unreadable ← get read_fault;
      match unreadable with
      | Some e => raise e
      | None =>
          refused ← get copy_fault;
          match refused with
          | Some e => raise e
          | None =>
              modify (set_clipboard (Some scoreboard_data));;
              print_status "Scoreboard data copied to clipboard";;
              print_status "Processing completed successfully!"
          end
      end
  end.

(** Lines 107-115: the configuration is read, or created and read back. *)
Definition load_configuration : M config_values :=
  print_status "Loading configuration...";;
  stored ← get config_ini;
  match stored with
  | Some _ =>
      config_data ← read_config;
      print_status "Configuration loaded successfully";;
      mret config_data
  | None =>
      print_status "Creating new configuration file...";;
      create_config
  end.

(** Lines 117-119: [os.remove] under a test of existence; what it raises
    when the removal is refused is not handled here. *)
Definition remove_old_scoreboard : M unit :=
  old ← get scoreboard_csv;
  match old with
  | Some _ =>
      refused ← get remove_fault;
      match refused with
      | Some e => raise e
      | None =>
          modify (set_scoreboard_csv None);;
          print_status "Removed old scoreboard file"
      end
  | None => mret tt
  end.

(** Lines 121-191: the folder, the loop and what follows it. *)
Definition process_folder (maps : json) : M unit :=
  folder ← get screenshots;
  match folder with
  | Some listing =>
      let screenshots := png_files listing in
      print_status ("Found " +:+ pretty (length screenshots)
                    +:+ " screenshots to process");;
      for_screenshots maps screenshots;;
      finish
  | None =>
      print_status "No screenshots folder found or no PNG files to process"
  end.

(** Lines 95-191: the body of the [try]. *)
Definition main_try : M unit :=
  print_status "Initializing VALScoreboardTracker...";;
  ready ← setup_tesseract;
  if negb ready then
    print_status "Failed to initialize Tesseract OCR. Please ensure it's properly installed.";;
    wait_for_user
  else
    config_data ← load_configuration;
    let maps := maps config_data in
    remove_old_scoreboard;;
    process_folder maps.

(** Lines 93-198: [main], with its [except Exception] and [finally]. *)
Definition main : M unit := λ w,
  match main_try w with
  | (inl e, w') =>
      (emit (ErrorOccurred e);;
       print_status "Please check the error message above and try again";;
       wait_for_user) w'
  | (inr _, w') => wait_for_user w'
  end.

(** The files and the console a run leaves. *)
Definition run (w : world) : world := (main w).2.

End run.

(** ** The run, screenshot by screenshot *)

(** What the library returns for one screenshot. *)
Record extraction := {
  map_name : string;
  agents : list string;
  output : table;
}.

Section rows.
Context `{Externals}.

(** The calls of lines 129-146, without the status lines between them. *)
Definition extract (maps : json) (filename : string) : result extraction :=
  let image := imread filename true in
  let image_colored := imread filename false in
  map_name ← find_map_name image maps;
  '(image, image_colored) ← find_tables image image_colored;
  '(cell_images_rows, headshots_images_rows) ←
    extract_cell_images_from_table image image_colored;
  agents ← identify_agents headshots_images_rows;
  output ← read_table_rows cell_images_rows headshots_images_rows;
  Ok {| map_name := map_name; agents := agents; output := output |}.

(** Lines 150-170 on an extraction: merge, filter, clean. *)
Definition clean_output (current_date : string) (x : extraction) : result table :=
  merged_output ← merge current_date (map_name x) (agents x) 0 (output x) [];
  filtered_output ← filter_team1 merged_output;
  clean filtered_output.

(** The rows a screenshot contributes to the store. *)
Definition rows (maps : json) (filename : string) : result table :=
  x ← extract maps filename;
  clean_output (current_date filename) x.

(** The store after a screenshot that contributes [rows]: nothing is
    written for a screenshot without rows. *)
Definition appended (store : option table) (rows : table) : option table :=
  match rows with
  | [] => store
  | _ => Some (default [] store ++ rows)
  end.

(** The loop as a fold: the first exception, if any, and the store. *)
Fixpoint batch (maps : json) (screenshots : list string) (store : option table)
  : result unit * option table :=
  match screenshots with
  | [] => (Ok tt, store)
  | filename :: rest =>
      match rows maps filename with
      | inl e => (Raise e, store)
      | inr r => batch maps rest (appended store r)
      end
  end.
End rows.

(** The maps a run works with: decoded from [config.ini], or those of the
    default configuration when there is no file. *)
Definition loaded_maps (w : world) : result json :=
  match config_ini w with
  | Some Unparsable => Raise ParsingError
  | Some (Parsable c) =>
      text ← ConfigParser_get c "General" "maps";
      Json.loads text
  | None => Ok (JArray [])
  end.

(** [setup_tesseract] returns [True]. *)
Definition tesseract_ready (w : world) : bool :=
  tesseract_dir w && tesseract_exe w && eng_traineddata w.

(** The exception of line 118, when it raises: there is a store and
    [os.remove] refuses to remove it. *)
Definition reset_error (w : world) : option exn :=
  match scoreboard_csv w with
  | Some _ => remove_fault w
  | None => None
  end.

(** The exception of lines 185-188 on a store that exists, when one of them
    raises: the reading comes before the copy. *)
Definition publish_error (w : world) : option exn :=
  match read_fault w with
  | Some e => Some e
  | None => copy_fault w
  end.

(** The prompts of a run: the one of the [finally] clause, and before it the
    one of line 99 when the set-up of Tesseract fails. *)
Definition prompts (w : world) : nat := if tesseract_ready w then 1 else 2.

(** ** The outcome of a run, as a function of the world it starts in *)

Inductive verdict :=
  | NoTesseract              (* setup_tesseract returned False, line 99 returned *)
  | NothingToDo              (* no screenshots folder *)
  | Failed (e : exn)         (* the except clause caught e *)
  | Succeeded (data : table). (* the store was copied to the clipboard *)

Section outcome.
Context `{Externals}.

(** The loop's result, when the run gets as far as the loop: the store is
    removed before the first screenshot. *)
Definition loop_result (w : world) : option (result unit * option table) :=
  if tesseract_ready w then
    match loaded_maps w, reset_error w, screenshots w with
    | inr maps, None, Some listing => Some (batch maps (png_files listing) None)
    | _, _, _ => None
    end
  else None.

(** The outcome, read off the world: the first call that raises decides it.
    Without Tesseract the prompt of line 99 is inside the [try], so its
    [EOFError] is caught like any other exception. *)
Definition verdict_of (w : world) : verdict :=
  if tesseract_ready w then
    match loaded_maps w, reset_error w, screenshots w with
    | inl e, _, _ => Failed e
    | inr _, Some e, _ => Failed e
    | inr _, None, None => NothingToDo
    | inr maps, None, Some listing =>
        match batch maps (png_files listing) None, temp_headshot w with
        | (inl e, _), _ => Failed e
        | (inr _, _), TempLocked => Failed (PermissionError "temp_headshot.png")
        | (inr _, None), _ => Failed (FileNotFoundError "scoreboard.csv")
        | (inr _, Some data), _ =>
            match publish_error w with
            | Some e => Failed e
            | None => Succeeded data
            end
        end
    end
  else
    match stdin w with
    | 0 => Failed EOFError
    | S _ => NoTesseract
    end.

Definition final_config (w : world) : option ini_file :=
  match config_ini w with
  | None => if tesseract_ready w then Some (Parsable default_config) else None
  | Some f => Some f
  end.

Definition final_store (w : world) : option table :=
  if tesseract_ready w then
    match loaded_maps w, reset_error w, screenshots w with
    | inl _, _, _ => scoreboard_csv w
    | inr _, Some _, _ => scoreboard_csv w
    | inr _, None, None => None
    | inr maps, None, Some listing => (batch maps (png_files listing) None).2
    end
  else scoreboard_csv w.

Definition final_temp (w : world) : temp_entry :=
  match loop_result w, temp_headshot w with
  | Some (inr _, _), TempFile => TempAbsent
  | _, t => t
  end.

Definition final_clipboard (w : world) : option table :=
  match verdict_of w with
  | Succeeded data => Some data
  | _ => clipboard w
  end.

(** Each prompt takes a line of standard input, while there is one. *)
Definition final_stdin (w : world) : nat :=
  if tesseract_ready w then pred (stdin w) else pred (pred (stdin w)).

(** What [main] returns or raises: the [finally] clause is outside every
    handler, so the [EOFError] of its prompt leaves [main]. *)
Definition main_result (w : world) : result unit :=
  if (stdin w <? prompts w)%nat then Raise EOFError else Ok tt.

(** The lines that close the console. *)
Definition closing (v : verdict) : list event :=
  match v with
  | NoTesseract =>
      [Status "Failed to initialize Tesseract OCR. Please ensure it's properly installed.";
       PressEnter; PressEnter]
  | NothingToDo =>
      [Status "No screenshots folder found or no PNG files to process"; PressEnter]
  | Failed e =>
      [ErrorOccurred e;
       Status "Please check the error message above and try again";
       PressEnter]
  | Succeeded _ =>
      [Status "Processing completed successfully!"; PressEnter]
  end.

Definition final_world (out : list event) (w : world) : world :=
  {| tesseract_dir := tesseract_dir w; tesseract_exe := tesseract_exe w;
     eng_traineddata := eng_traineddata w; config_ini := final_config w;
     scoreboard_csv := final_store w; screenshots := screenshots w;
     temp_headshot := final_temp w; clipboard := final_clipboard w;
     console := console w ++ out;
     remove_fault := remove_fault w; read_fault := read_fault w;
     copy_fault := copy_fault w; stdin := final_stdin w |}.
End outcome.

(** The last lines of the console, by which the operator tells the outcomes
    of a run apart. *)
Definition reports_success (w : world) : Prop :=
  [Status "Processing completed successfully!"; PressEnter] `suffix_of` console w.

Definition reports_error (e : exn) (w : world) : Prop :=
  [ErrorOccurred e;
   Status "Please check the error message above and try again";
   PressEnter] `suffix_of` console w.

Definition reports_nothing_to_do (w : world) : Prop :=
  [Status "No screenshots folder found or no PNG files to process"; PressEnter]
    `suffix_of` console w.

(** A world that differs from [w] in the store and the console only. *)
Definition with_store (store : option table) (out : list event) (w : world) : world :=
  set_console out (set_scoreboard_csv store w).

(** The world [finish] leaves when it gets past the clean-up. *)
Definition cleaned (out : list event) (w : world) : world :=
  set_console (console w ++ out) (set_temp_headshot TempAbsent w).

(** The rows of the artifact; a missing file holds none. *)
Definition stored (store : option table) : table := default [] store.

(** The Row Transformer of the specification (4.4), on rows held as lists
    with the team tag first: each raw row is paired with the agent of its
    index, the pairs of team 1 are kept, and a kept pair becomes the date, the
    map, the agent and the player fields. *)
Definition transform (raw_rows : table) (agents : list string)
    (map_name date : string) : table :=
  (λ p, [date; map_name; p.2] ++ drop 1 p.1) <$>
    filter (λ p, head p.1 = Some "team1") (zip raw_rows agents).

(** The merged row of a raw row and its agent (line 157). *)
Definition enrich (current_date map_name : string) (p : list string * string)
  : list string :=
  [current_date; default EmptyString (head p.1); map_name; p.2] ++ drop 1 p.1.

(** A screenshot without a row of team 1: the library and the merge return,
    and the filter keeps nothing. *)
Definition no_team1 `{Externals} (maps : json) (filename : string) : Prop :=
  ∃ x merged_output,
    extract maps filename = Ok x
    ∧ merge (current_date filename) (map_name x) (agents x) 0 (output x) [] = Ok merged_output
    ∧ filter_team1 merged_output = Ok [].

(** The decoded [maps] is a sequence of strings. *)
Definition is_string_list (v : json) : bool :=
  match v with
  | JArray items =>
      forallb (λ item, match item with JString _ => true | _ => false end) items
  | _ => false
  end.

(** ** A library of fixed answers

    The pipeline run against stub implementations of the library: an image
    is the name of its file, and a table gives, per file, the map, whether a
    scoreboard table is found, the agents and the rows read. *)
Module Stub.

Record screenshot := {
  shot_map : string;
  shot_table : bool;
  shot_agents : list string;
  shot_rows : table;
}.

Definition externals (dates : string → string) (shots : string → screenshot)
  : Externals :=
  {| image := string;
     cell_images := string;
     headshot_images := string;
     imread := λ filename _, filename;
     current_date := dates;
     find_map_name := λ image _, Ok (shot_map (shots image));
     find_tables := λ image image_colored,
       if shot_table (shots image) then Ok (image, image_colored)
       else Raise (LibraryError "TableNotFoundError" "no scoreboard table");
     extract_cell_images_from_table := λ image _, Ok (image, image);
     identify_agents := λ headshots, Ok (shot_agents (shots headshots));
     read_table_rows := λ cells _, Ok (shot_rows (shots cells)) |}.

(** The screenshot of the specification's example, one without a row of
    team 1, one without a table, and one whose agents fall short. *)
Definition shot1 : screenshot :=
  {| shot_map := "Ascent"; shot_table := true;
     shot_agents := ["Jett"; "Sova"];
     shot_rows := [["team1"; "10"; "2"; "5"]; ["team2"; "8"; "3"; "4"]] |}.

Definition shot2 : screenshot :=
  {| shot_map := "Bind"; shot_table := true;
     shot_agents := ["Omen"; "Sage"];
     shot_rows := [["team1"; "7"; "7"; "1"]; ["team1"; "3"; "9"; "0"]] |}.

Definition enemies : screenshot :=
  {| shot_map := "Haven"; shot_table := true;
     shot_agents := ["Raze"];
     shot_rows := [["team2"; "20"; "1"; "3"]] |}.

Definition blank : screenshot :=
  {| shot_map := "Unknown"; shot_table := false;
     shot_agents := []; shot_rows := [] |}.

Definition short : screenshot :=
  {| shot_map := "Split"; shot_table := true;
     shot_agents := ["Jett"];
     shot_rows := [["team1"; "1"; "2"; "3"]; ["team1"; "4"; "5"; "6"]] |}.

Definition shots (filename : string) : screenshot :=
  if bool_decide (filename = "shot1.png") then shot1
  else if bool_decide (filename = "shot2.png") then shot2
  else if bool_decide (filename = "enemies.png") then enemies
  else if bool_decide (filename = "short.png") then short
  else blank.

Definition dated (date : string) : Externals := externals (λ _, date) shots.

(** A machine with Tesseract in place, no configuration, no store, the
    given listing of the screenshot folder, files and a clipboard that refuse
    nothing, and an operator who answers two prompts. *)
Definition machine (folder : option (list string)) : world :=
  {| tesseract_dir := true; tesseract_exe := true; eng_traineddata := true;
     config_ini := None; scoreboard_csv := None; screenshots := folder;
     temp_headshot := TempAbsent; clipboard := None; console := [];
     remove_fault := None; read_fault := None; copy_fault := None;
     stdin := 2 |}.

Definition config_with (text : string) : ini_file :=
  Parsable {| defaults := ∅; sections := {[ "General" := {[ "maps" := text ]} ]} |}.

End Stub.

(** ** Further definitions *)


Definition set_screenshots (folder : option (list string)) (w : world) : world :=
  {| tesseract_dir := tesseract_dir w; tesseract_exe := tesseract_exe w;
     eng_traineddata := eng_traineddata w; config_ini := config_ini w;
     scoreboard_csv := scoreboard_csv w; screenshots := folder;
     temp_headshot := temp_headshot w; clipboard := clipboard w;
     console := console w;
     remove_fault := remove_fault w; read_fault := read_fault w;
     copy_fault := copy_fault w; stdin := stdin w |}.

(** A name that needs no escape in a JSON string: no double quote, no
    backslash, no control character. *)
Fixpoint plain (s : string) : bool :=
  match s with
  | EmptyString => true
  | String c r =>
      negb (bool_decide (c = Json.quote))
      && negb (bool_decide (c = Json.backslash))
      && (32 <=? nat_of_ascii c)%nat
      && plain r
  end.

(** The text of [maps] for a list of names: the quoted names between
    brackets, a comma and a blank between them. *)
Definition json_names (names : list string) : string :=
  "[" +:+ String.concat ", " (quoted <$> names) +:+ "]".

(** ** The decoder and the listing on examples *)

Example loads_empty_list : Json.loads "[]" = Ok (JArray []).
Proof. reflexivity. Qed.

Example loads_maps :
  Json.loads ("[" +:+ quoted "Ascent" +:+ ", " +:+ quoted "Bind" +:+ "]")
  = Ok (JArray [JString "Ascent"; JString "Bind"]).
Proof. reflexivity. Qed.

Example loads_nested :
  Json.loads ("{" +:+ quoted "maps" +:+ ": [1, -2.5e3, null, true], "
              +:+ quoted "n" +:+ " : {} }")
  = Ok (JObject [("maps", JArray [JInt 1; JFloat "-2.5e3"; JNull; JBool true]);
                 ("n", JObject [])]).
Proof. reflexivity. Qed.

Example loads_rejects :
  Json.loads "" = Raise JSONDecodeError
  ∧ Json.loads "[1,]" = Raise JSONDecodeError
  ∧ Json.loads "01" = Raise JSONDecodeError
  ∧ Json.loads "[] []" = Raise JSONDecodeError
  ∧ Json.loads "Ascent, Bind" = Raise JSONDecodeError.
Proof. by vm_compute. Qed.

Example png_files_example :
  png_files ["shot1.png"; "SHOT2.PNG"; "notes.txt"; "png"; "a.png.bak"]
  = ["shot1.png"; "SHOT2.PNG"].
Proof. reflexivity. Qed.

(** ** Lemmas on the loop *)

(** Unfolds the monad and the updates of the world, sharing the worlds it
    substitutes. *)
Ltac world_norm :=
  lazy beta iota zeta delta
    [set_console set_scoreboard_csv set_temp_headshot set_clipboard set_config_ini
     set_stdin with_store cleaned tesseract_dir tesseract_exe eng_traineddata
     config_ini scoreboard_csv screenshots temp_headshot clipboard console
     remove_fault read_fault copy_fault stdin
     mbind mret M_bind M_ret result_bind result_ret lift get modify raise
     print_status wait_for_user emit from_option id].

(** Closes a goal [∃ out, (r, w') = (r, w'')] in which the two worlds differ by
    the grouping of the lines appended to the console. *)
Ltac console_tail :=
  world_norm; eexists; rewrite <- ?app_assoc; reflexivity.

(** Proves [l `suffix_of` k] when [l] closes the list [k]. *)
Ltac solve_suffix :=
  first [ reflexivity
        | apply suffix_cons_r; solve_suffix
        | apply suffix_app_r; solve_suffix ].

(** Closes [∃ out, w1 = w2 ∧ l `suffix_of` out] where [w2] has the console
    [c ++ out] and [w1] the console [c] followed by lines that end in [l]. *)
Ltac settle :=
  world_norm; eexists; split;
  [ rewrite <- ?app_assoc; reflexivity
  | cbn [app closing]; solve_suffix ].

Section loop_facts.
Context `{Externals}.

Lemma with_store_id (w : world) :
  with_store (scoreboard_csv w) (console w) w = w.
Proof. by destruct w. Qed.

Lemma clean_length (t r : table) : clean t = Ok r → length r = length t.
Proof.
  revert r. induction t as [|row t IH]; intros r; cbn.
  - by intros [= <-].
  - destruct (clean_row row) as [e|row']; cbn; [done|].
    destruct (clean t) as [e|r']; cbn; [done|].
    intros [= <-]. cbn. f_equal. by apply IH.
Qed.

Lemma appended_cons (store : option table) (row : list string) (r : table) :
  appended store (row :: r) = Some (default [] store ++ row :: r).
Proof. reflexivity. Qed.

Lemma process_screenshot_rows (maps : json) (filename : string) (w : world) :
  ∃ out,
    process_screenshot maps filename w =
    match rows maps filename with
    | inl e => (Raise e, with_store (scoreboard_csv w) (console w ++ out) w)
    | inr r => (Ok tt, with_store (appended (scoreboard_csv w) r) (console w ++ out) w)
    end.
Proof.
  unfold process_screenshot, rows, extract, clean_output, write_csv.
  destruct w. world_norm.
  destruct (find_map_name _ _) as [e|m]; [console_tail|].
  destruct (find_tables _ _) as [e|[i c]]; [console_tail|].
  destruct (extract_cell_images_from_table _ _) as [e|[cs hs]]; [console_tail|].
  destruct (identify_agents _) as [e|ags]; [console_tail|].
  destruct (read_table_rows _ _) as [e|rs]; [console_tail|].
  destruct (merge _ _ _ _ _ _) as [e|merged]; [console_tail|].
  destruct (filter_team1 _) as [e|filtered]; [console_tail|].
  destruct filtered as [|row filtered]; [console_tail|].
  destruct (clean (row :: filtered)) as [e|r] eqn:Hclean; [console_tail|].
  apply clean_length in Hclean. destruct r as [|row' r]; [done|].
  rewrite appended_cons. console_tail.
Qed.

Lemma with_store_with_store s1 o1 s2 o2 (w : world) :
  with_store s2 o2 (with_store s1 o1 w) = with_store s2 o2 w.
Proof. reflexivity. Qed.

Lemma for_screenshots_batch (maps : json) (files : list string) (w : world) :
  ∃ out,
    for_screenshots maps files w =
    ((batch maps files (scoreboard_csv w)).1,
     with_store (batch maps files (scoreboard_csv w)).2 (console w ++ out) w).
Proof.
  revert w. induction files as [|f files IH]; intros w; cbn [for_screenshots batch].
  - exists []. cbn [fst snd]. rewrite app_nil_r, with_store_id. reflexivity.
  - destruct (process_screenshot_rows maps f w) as [out Hf].
    unfold mbind, M_bind. rewrite Hf.
    destruct (rows maps f) as [e|r]; cbn [fst snd].
    + by exists out.
    + destruct (IH (with_store (appended (scoreboard_csv w) r) (console w ++ out) w))
        as [out' ->].
      exists (out ++ out').
      replace (scoreboard_csv (with_store _ _ w)) with (appended (scoreboard_csv w) r)
        by reflexivity.
      replace (console (with_store _ _ w)) with (console w ++ out) by reflexivity.
      by rewrite with_store_with_store, <- app_assoc.
Qed.

Lemma setup_tesseract_eq (w : world) :
  setup_tesseract w =
  (Ok (tesseract_ready w),
   set_console (console w ++ [Status "Setting up Tesseract OCR..."]) w).
Proof.
  unfold setup_tesseract, verify_tesseract_files, tesseract_ready.
  destruct w as [[] [] [] ? ? ? ? ? ? ? ? ? ?]; reflexivity.
Qed.

Lemma read_config_eq (w : world) :
  is_Some (config_ini w) →
  read_config w =
  (match loaded_maps w with
   | inl e => Raise e
   | inr m => Ok {| maps := m |}
   end, w).
Proof.
  intros [f Hf]. destruct w as [? ? ? cfg ? ? ? ? ? ? ? ? ?]. cbn in Hf. subst cfg.
  unfold read_config, ConfigParser_read, loaded_maps. world_norm.
  destruct f as [|c]; [done|].
  destruct (ConfigParser_get c "General" "maps") as [e|text]; [done|].
  by destruct (Json.loads text).
Qed.

Lemma default_config_maps :
  ConfigParser_get default_config "General" "maps" = Ok "[]".
Proof. reflexivity. Qed.

Lemma create_config_eq (w : world) :
  create_config w =
  (Ok {| maps := JArray [] |}, set_config_ini (Some (Parsable default_config)) w).
Proof.
  unfold create_config, read_config, ConfigParser_read. world_norm.
  rewrite default_config_maps. reflexivity.
Qed.

Lemma load_configuration_eq (w : world) :
  ∃ out,
    load_configuration w =
    match loaded_maps w with
    | inl e => (Raise e, set_console (console w ++ out) w)
    | inr m =>
        (Ok {| maps := m |},
         set_console (console w ++ out)
           (set_config_ini (Some (default (Parsable default_config) (config_ini w))) w))
    end.
Proof.
  unfold load_configuration.
  unfold mbind at 1 2, M_bind at 1 2, print_status at 1, get at 1, emit, modify.
  set (w1 := set_console _ w).
  replace (config_ini w1) with (config_ini w) by reflexivity.
  replace (loaded_maps w) with (loaded_maps w1) by reflexivity.
  destruct (config_ini w) as [f|] eqn:Hcfg.
  - unfold mbind at 1, M_bind at 1. rewrite read_config_eq by (cbn; rewrite Hcfg; eauto).
    destruct (loaded_maps w1) as [e|m]; subst w1.
    + by eexists.
    + destruct w; cbn in Hcfg; subst. console_tail.
  - unfold mbind, M_bind, print_status, emit, modify.
    rewrite create_config_eq.
    unfold loaded_maps. subst w1.
    destruct w; cbn in Hcfg; subst. console_tail.
Qed.

Lemma remove_old_scoreboard_eq (w : world) :
  ∃ out,
    remove_old_scoreboard w =
    match reset_error w with
    | Some e => (Raise e, w)
    | None => (Ok tt, with_store None (console w ++ out) w)
    end.
Proof.
  unfold remove_old_scoreboard, reset_error.
  destruct w as [? ? ? ? [old|] ? ? ? ? [e|] ? ? ?].
  - by exists [].
  - console_tail.
  - exists []. world_norm. by rewrite app_nil_r.
  - exists []. world_norm. by rewrite app_nil_r.
Qed.

Lemma wait_for_user_eq (w : world) :
  wait_for_user w =
  (match stdin w with 0 => Raise EOFError | S _ => Ok tt end,
   set_stdin (pred (stdin w)) (set_console (console w ++ [PressEnter]) w)).
Proof. by destruct w as [? ? ? ? ? ? ? ? ? ? ? ? [|lines]]. Qed.

Lemma finish_eq (w : world) :
  ∃ out,
    finish w =
    match temp_headshot w, scoreboard_csv w with
    | TempLocked, _ =>
        (Raise (PermissionError "temp_headshot.png"), set_console (console w ++ out) w)
    | _, None => (Raise (FileNotFoundError "scoreboard.csv"), cleaned out w)
    | _, Some data =>
        match publish_error w with
        | Some e => (Raise e, cleaned out w)
        | None =>
            (Ok tt,
             set_clipboard (Some data)
               (cleaned (out ++ [Status "Processing completed successfully!"]) w))
        end
    end.
Proof.
  unfold finish, publish_error.
  destruct w as [? ? ? ? [data|] ? [| |] ? ? ? [e1|] [e2|] ?].
  all: first
    [ by (exists [Status "Cleaning up temporary files...";
                  Status "Reading final scoreboard data...";
                  Status "Scoreboard data copied to clipboard"];
          world_norm; rewrite <- ?app_assoc)
    | by (exists [Status "Cleaning up temporary files...";
                  Status "Temporary files cleaned up";
                  Status "Reading final scoreboard data...";
                  Status "Scoreboard data copied to clipboard"];
          world_norm; rewrite <- ?app_assoc)
    | console_tail ].
Qed.

Lemma process_folder_eq (maps : json) (w : world) :
  ∃ out,
    process_folder maps w =
    match screenshots w with
    | None =>
        (Ok tt,
         set_console
           (console w ++
            [Status "No screenshots folder found or no PNG files to process"]) w)
    | Some listing =>
        match batch maps (png_files listing) (scoreboard_csv w), temp_headshot w with
        | (inl e, store), _ => (Raise e, with_store store (console w ++ out) w)
        | (inr _, store), TempLocked =>
            (Raise (PermissionError "temp_headshot.png"),
             with_store store (console w ++ out) w)
        | (inr _, None), _ =>
            (Raise (FileNotFoundError "scoreboard.csv"),
             set_temp_headshot TempAbsent (with_store None (console w ++ out) w))
        | (inr _, Some data), _ =>
            match publish_error w with
            | Some e =>
                (Raise e,
                 set_temp_headshot TempAbsent
                   (with_store (Some data) (console w ++ out) w))
            | None =>
                (Ok tt,
                 set_clipboard (Some data)
                   (set_temp_headshot TempAbsent
                      (with_store (Some data)
                         (console w ++ out ++ [Status "Processing completed successfully!"])
                         w)))
            end
        end
    end.
Proof.
  unfold process_folder.
  unfold mbind at 1, M_bind at 1, get at 1.
  destruct (screenshots w) as [listing|] eqn:Hshots; [|by exists []].
  unfold mbind at 1, M_bind at 1, print_status at 1, emit, modify.
  set (found := Status _).
  set (w1 := set_console _ w).
  unfold mbind, M_bind.
  destruct (for_screenshots_batch maps (png_files listing) w1) as [out1 ->].
  replace (scoreboard_csv w1) with (scoreboard_csv w) by reflexivity.
  destruct (batch maps (png_files listing) (scoreboard_csv w)) as [[e|[]] store];
    cbn [fst snd].
  - subst w1. destruct w. console_tail.
  - set (w2 := with_store store _ w1).
    destruct (finish_eq w2) as [out2 ->].
    replace (temp_headshot w2) with (temp_headshot w) by reflexivity.
    replace (scoreboard_csv w2) with store by reflexivity.
    replace (publish_error w2) with (publish_error w) by reflexivity.
    subst w2 w1. exists ([found] ++ out1 ++ out2).
    destruct (publish_error w) as [e|];
      destruct w as [? ? ? ? ? ? temp ? ? ? ? ? ?];
      destruct temp, store as [data|]; world_norm; by rewrite <- ?app_assoc.
Qed.

(** The run as a function of the world it starts in: what [main] returns or
    raises, the files it leaves, and the lines that close the console. *)
Lemma main_final (w : world) :
  ∃ out,
    main w = (main_result w, final_world out w)
    ∧ closing (verdict_of w) `suffix_of` out.
Proof.
  unfold main, main_try.
  unfold mbind at 1 2, M_bind at 1 2, print_status at 1, emit at 1, modify at 1.
  rewrite setup_tesseract_eq.
  replace (tesseract_ready (set_console _ w)) with (tesseract_ready w) by reflexivity.
  unfold main_result, prompts, final_world, final_config, final_store, final_temp,
    final_clipboard, final_stdin, verdict_of, loop_result.
  destruct (tesseract_ready w) eqn:Hready; cbn [negb].
  2:{ destruct w as [? ? ? cfg ? ? ? ? ? ? ? ? [|[|lines]]].
      all: destruct cfg; settle. }
  set (w1 := set_console _ (set_console _ w)).
  unfold mbind at 1, M_bind at 1.
  destruct (load_configuration_eq w1) as [out1 ->].
  replace (loaded_maps w1) with (loaded_maps w) by reflexivity.
  destruct (loaded_maps w) as [e|m] eqn:Hmaps.
  { subst w1. destruct w as [? ? ? cfg ? ? temp ? ? ? ? ? [|lines]].
    all: destruct cfg as [f|]; [|by unfold loaded_maps in Hmaps].
    all: destruct temp; settle. }
  cbn [maps].
  set (w2 := set_console _ (set_config_ini _ w1)).
  unfold mbind at 1, M_bind at 1.
  destruct (remove_old_scoreboard_eq w2) as [out2 ->].
  replace (reset_error w2) with (reset_error w) by reflexivity.
  destruct (reset_error w) as [e|] eqn:Hreset.
  { subst w2 w1. clear Hready Hmaps Hreset.
    destruct w as [? ? ? cfg ? ? temp ? ? ? ? ? [|lines]].
    all: destruct cfg, temp; settle. }
  set (w3 := with_store None _ w2).
  destruct (process_folder_eq m w3) as [out3 ->].
  replace (screenshots w3) with (screenshots w) by reflexivity.
  replace (scoreboard_csv w3) with (@None table) by reflexivity.
  replace (temp_headshot w3) with (temp_headshot w) by reflexivity.
  replace (publish_error w3) with (publish_error w) by reflexivity.
  subst w3 w2 w1. clear Hready Hmaps Hreset.
  destruct (publish_error w) as [e|].
  all: destruct w as [? ? ? cfg ? shots temp ? ? ? ? ? [|lines]].
  all: cbn [screenshots temp_headshot].
  all: destruct shots as [listing|]; [|destruct cfg, temp; settle].
  all: destruct (batch m (png_files listing) None) as [[e'|[]] store].
  all: destruct cfg, temp, store; settle.
Qed.

Lemma run_final (w : world) :
  ∃ out, run w = final_world out w ∧ closing (verdict_of w) `suffix_of` out.
Proof.
  destruct (main_final w) as (out & Hmain & Hout).
  exists out. unfold run. by rewrite Hmain.
Qed.
End loop_facts.

(** ** The run as a function of the world *)

Section run_facts.
Context `{Externals}.

Lemma run_store (w : world) : scoreboard_csv (run w) = final_store w.
Proof. destruct (run_final w) as [out [-> _]]. reflexivity. Qed.

Lemma run_clipboard (w : world) : clipboard (run w) = final_clipboard w.
Proof. destruct (run_final w) as [out [-> _]]. reflexivity. Qed.

Lemma run_config (w : world) : config_ini (run w) = final_config w.
Proof. destruct (run_final w) as [out [-> _]]. reflexivity. Qed.

Lemma run_temp (w : world) : temp_headshot (run w) = final_temp w.
Proof. destruct (run_final w) as [out [-> _]]. reflexivity. Qed.

Lemma run_screenshots (w : world) : screenshots (run w) = screenshots w.
Proof. destruct (run_final w) as [out [-> _]]. reflexivity. Qed.

Lemma run_tesseract_ready (w : world) :
  tesseract_ready (run w) = tesseract_ready w.
Proof. destruct (run_final w) as [out [-> _]]. reflexivity. Qed.

Lemma run_stdin (w : world) : stdin (run w) = final_stdin w.
Proof. destruct (run_final w) as [out [-> _]]. reflexivity. Qed.

Lemma run_faults (w : world) :
  remove_fault (run w) = remove_fault w
  ∧ read_fault (run w) = read_fault w
  ∧ copy_fault (run w) = copy_fault w.
Proof. destruct (run_final w) as [out [-> _]]. by split_and!. Qed.

Lemma main_returns (w : world) : (main w).1 = main_result w.
Proof. destruct (main_final w) as (out & -> & _). reflexivity. Qed.

Lemma run_closing (w : world) : closing (verdict_of w) `suffix_of` console (run w).
Proof.
  destruct (run_final w) as [out [-> Hout]]. cbn [final_world console].
  by apply suffix_app_r.
Qed.

Lemma verdict_failed (w : world) (e : exn) :
  verdict_of w = Failed e → reports_error e (run w).
Proof.
  intros Hv. unfold reports_error.
  pose proof (run_closing w) as Hc. by rewrite Hv in Hc.
Qed.

Lemma verdict_succeeded (w : world) (data : table) :
  verdict_of w = Succeeded data → reports_success (run w).
Proof.
  intros Hv. unfold reports_success.
  pose proof (run_closing w) as Hc. by rewrite Hv in Hc.
Qed.

Lemma verdict_nothing_to_do (w : world) :
  verdict_of w = NothingToDo → reports_nothing_to_do (run w).
Proof.
  intros Hv. unfold reports_nothing_to_do.
  pose proof (run_closing w) as Hc. by rewrite Hv in Hc.
Qed.

Lemma batch_ok (maps : json) (files : list string) (rowss : list table)
    (store : option table) :
  Forall2 (λ f r, rows maps f = Ok r) files rowss →
  batch maps files store = (Ok tt, foldl appended store rowss).
Proof.
  intros Hall. revert store.
  induction Hall as [|f r files rowss Hf _ IH]; intros store; cbn; [done|].
  rewrite Hf. apply IH.
Qed.

Lemma batch_fails (maps : json) (pre post : list string) (b : string)
    (rowss : list table) (e : exn) (store : option table) :
  Forall2 (λ f r, rows maps f = Ok r) pre rowss →
  rows maps b = Raise e →
  batch maps (pre ++ b :: post) store = (Raise e, foldl appended store rowss).
Proof.
  intros Hall Hb. revert store.
  induction Hall as [|f r files rowss Hf _ IH]; intros store; cbn.
  - by rewrite Hb.
  - rewrite Hf. apply IH.
Qed.
End run_facts.

Lemma foldl_appended_Some (t : table) (rowss : list table) :
  foldl appended (Some t) rowss = Some (t ++ concat rowss).
Proof.
  revert t. induction rowss as [|r rowss IH]; intros t; cbn.
  - by rewrite app_nil_r.
  - destruct r as [|row r]; cbn.
    + apply IH.
    + rewrite IH. by rewrite <- app_assoc.
Qed.

Lemma foldl_appended_None (rowss : list table) :
  foldl appended None rowss =
  match concat rowss with
  | [] => None
  | _ => Some (concat rowss)
  end.
Proof.
  induction rowss as [|r rowss IH]; cbn; [done|].
  destruct r as [|row r]; cbn; [done|].
  by rewrite foldl_appended_Some.
Qed.

Lemma stored_foldl_appended (store : option table) (rowss : list table) :
  stored (foldl appended store rowss) = stored store ++ concat rowss.
Proof.
  destruct store as [t|]; cbn.
  - by rewrite foldl_appended_Some.
  - rewrite foldl_appended_None. by destruct (concat rowss).
Qed.

Lemma error_not_success (e : exn) (w : world) :
  reports_error e w → ¬ reports_success w.
Proof.
  intros [k1 H1] [k2 H2]. rewrite H1 in H2.
  change (k1 ++ [ErrorOccurred e; Status "Please check the error message above and try again"; PressEnter])
    with (k1 ++ [ErrorOccurred e] ++ [Status "Please check the error message above and try again"; PressEnter]) in H2.
  rewrite app_assoc in H2.
  apply app_inj_2 in H2; [|done]. by destruct H2 as [_ [=]].
Qed.

Lemma error_not_nothing_to_do (e : exn) (w : world) :
  reports_error e w → ¬ reports_nothing_to_do w.
Proof.
  intros [k1 H1] [k2 H2]. rewrite H1 in H2.
  change (k1 ++ [ErrorOccurred e; Status "Please check the error message above and try again"; PressEnter])
    with (k1 ++ [ErrorOccurred e] ++ [Status "Please check the error message above and try again"; PressEnter]) in H2.
  rewrite app_assoc in H2.
  apply app_inj_2 in H2; [|done]. by destruct H2 as [_ [=]].
Qed.

Section screenshots.
Context `{Externals}.

Lemma no_team1_rows (maps : json) (filename : string) :
  no_team1 maps filename → rows maps filename = Ok [].
Proof.
  intros (x & merged & Hx & Hmerge & Hfilter).
  unfold rows, clean_output. rewrite Hx. cbn. rewrite Hmerge. cbn.
  by rewrite Hfilter.
Qed.

Lemma batch_nothing (maps : json) (files : list string) (store : option table) :
  Forall (no_team1 maps) files → batch maps files store = (Ok tt, store).
Proof.
  induction 1 as [|f files Hf _ IH]; cbn; [done|].
  by rewrite (no_team1_rows _ _ Hf).
Qed.

Lemma find_tables_raises (maps : json) (filename m : string) (e : exn) :
  find_map_name (imread filename true) maps = Ok m →
  find_tables (imread filename true) (imread filename false) = Raise e →
  rows maps filename = Raise e.
Proof. intros Hm Ht. unfold rows, extract. rewrite Hm. cbn. by rewrite Ht. Qed.

(** A run that gets to the loop and meets an exception at screenshot [b]:
    the store holds the rows of the screenshots before [b], nothing is
    published and the error is reported. *)
Lemma run_fails_at (w : world) (maps : json) (listing pre post : list string)
    (b : string) (rowss : list table) (e : exn) :
  tesseract_ready w = true →
  loaded_maps w = Ok maps →
  reset_error w = None →
  screenshots w = Some listing →
  png_files listing = pre ++ b :: post →
  Forall2 (λ f r, rows maps f = Ok r) pre rowss →
  rows maps b = Raise e →
  stored (scoreboard_csv (run w)) = concat rowss
  ∧ clipboard (run w) = clipboard w
  ∧ reports_error e (run w)
  ∧ ¬ reports_success (run w).
Proof.
  intros Hready Hmaps Hreset Hshots Hpng Hpre Hb.
  assert (Hv : verdict_of w = Failed e).
  { unfold verdict_of. rewrite Hready, Hmaps, Hreset, Hshots, Hpng.
    rewrite (batch_fails _ _ _ _ _ _ _ Hpre Hb). by destruct (temp_headshot w). }
  split_and!.
  - rewrite run_store. unfold final_store. rewrite Hready, Hmaps, Hreset, Hshots, Hpng.
    rewrite (batch_fails _ _ _ _ _ _ _ Hpre Hb). cbn [snd].
    by rewrite stored_foldl_appended.
  - rewrite run_clipboard. unfold final_clipboard. by rewrite Hv.
  - by apply verdict_failed.
  - by apply (error_not_success e), verdict_failed.
Qed.

(** A run whose loop processes every screenshot. *)
Lemma run_loop_done (w : world) (maps : json) (listing : list string)
    (rowss : list table) :
  tesseract_ready w = true →
  loaded_maps w = Ok maps →
  reset_error w = None →
  screenshots w = Some listing →
  Forall2 (λ f r, rows maps f = Ok r) (png_files listing) rowss →
  final_store w = foldl appended None rowss
  ∧ verdict_of w =
      match temp_headshot w, foldl appended None rowss with
      | TempLocked, _ => Failed (PermissionError "temp_headshot.png")
      | _, None => Failed (FileNotFoundError "scoreboard.csv")
      | _, Some data =>
          match publish_error w with
          | Some e => Failed e
          | None => Succeeded data
          end
      end
  ∧ final_temp w =
      match temp_headshot w with
      | TempLocked => TempLocked
      | _ => TempAbsent
      end.
Proof.
  intros Hready Hmaps Hreset Hshots Hall.
  unfold final_store, verdict_of, final_temp, loop_result.
  rewrite Hready, Hmaps, Hreset, Hshots, (batch_ok _ _ _ _ Hall). cbn [snd].
  split_and!; [done| |]; by destruct (temp_headshot w), (foldl appended None rowss).
Qed.
End screenshots.

(** ** Lemmas on the row transformer *)

Section transformer.
Variables current_date map_name : string.

Lemma merge_ok (agents : list string) (output : table) (i : nat) (acc : table) :
  Forall (λ row, row ≠ []) output →
  i + length output ≤ length agents →
  merge current_date map_name agents i output acc =
  Ok (acc ++ (enrich current_date map_name <$> zip output (drop i agents))).
Proof.
  intros Hrows. revert i acc.
  induction Hrows as [|row output Hrow _ IH]; intros i acc Hlen; cbn.
  - by rewrite app_nil_r.
  - destruct row as [|team fields]; [done|]. cbn in Hlen.
    destruct (lookup_lt_is_Some_2 agents i) as [agent Hagent]; [lia|].
    unfold index. cbn. rewrite Hagent. cbn.
    rewrite IH by lia. rewrite (drop_S _ _ _ Hagent). cbn.
    by rewrite <- app_assoc.
Qed.

Lemma merge_inv (agents : list string) (output : table) (i : nat)
    (acc merged : table) :
  merge current_date map_name agents i output acc = Ok merged →
  Forall (λ row, row ≠ []) output ∧ length output ≤ length agents - i.
Proof.
  revert i acc. induction output as [|row output IH]; intros i acc; cbn.
  - intros _. split; [constructor | lia].
  - destruct row as [|team fields]; [done|]. unfold index. cbn.
    destruct (agents !! i) as [agent|] eqn:Hagent; [|done]. cbn.
    intros Hrest. apply IH in Hrest as [Hrows Hlen].
    apply lookup_lt_Some in Hagent. split; [by constructor | lia].
Qed.

(** The merge raises nothing but the [IndexError] of its two subscripts. *)
Lemma merge_raises (agents : list string) (output : table) (i : nat)
    (acc : table) (e : exn) :
  merge current_date map_name agents i output acc = Raise e →
  (e = IndexError 153 ∧ [] ∈ output)
  ∨ (e = IndexError 157 ∧ length agents < i + length output).
Proof.
  revert i acc. induction output as [|row output IH]; intros i acc; cbn; [done|].
  destruct row as [|team fields].
  { intros [= <-]. left. split; [done | constructor]. }
  unfold index. cbn.
  destruct (agents !! i) as [agent|] eqn:Hagent; cbn.
  - intros Hrest. apply IH in Hrest as [[-> Hin] | [-> Hlen]].
    + left. split; [done | by constructor].
    + right. split; [done | lia].
  - intros [= <-]. apply lookup_ge_None in Hagent. right. split; [done | lia].
Qed.

Lemma merge_short (agents : list string) (output : table) (i : nat) (acc : table) :
  i ≤ length agents →
  length agents < i + length output →
  ∃ line, merge current_date map_name agents i output acc = Raise (IndexError line)
          ∧ (line = 153 ∨ line = 157)
          ∧ (Forall (λ row, row ≠ []) output → line = 157).
Proof.
  intros Hi Hlen.
  destruct (merge current_date map_name agents i output acc) as [e|merged] eqn:Hm.
  - apply merge_raises in Hm as [[-> Hin] | [-> _]].
    + exists 153. split_and!; [done | by left |].
      intros Hrows. by apply (proj1 (Forall_forall _ _) Hrows) in Hin.
    + exists 157. split_and!; [done | by right | done].
  - apply merge_inv in Hm as [_ ?]. lia.
Qed.

Lemma filter_team1_enriched (ps : list (list string * string)) :
  filter_team1 (enrich current_date map_name <$> ps) =
  Ok (enrich current_date map_name <$> filter (λ p, head p.1 = Some "team1") ps).
Proof.
  induction ps as [|[row agent] ps IH]; cbn; [done|].
  rewrite IH. cbn.
  destruct row as [|team fields]; cbn.
  - rewrite bool_decide_false by done. by rewrite decide_False by done.
  - destruct (decide (team = "team1")) as [->|Hteam].
    + rewrite bool_decide_true by done. by rewrite decide_True by done.
    + rewrite bool_decide_false by done. rewrite decide_False by congruence. done.
Qed.

Lemma clean_enriched (ps : list (list string * string)) :
  clean (enrich current_date map_name <$> ps) =
  Ok ((λ p, [current_date; map_name; p.2] ++ drop 1 p.1) <$> ps).
Proof.
  induction ps as [|[row agent] ps IH]; cbn; [done|].
  by rewrite IH.
Qed.

Lemma transform_origin (raw_rows : table) (agents : list string) (r : list string) :
  r ∈ transform raw_rows agents map_name current_date →
  ∃ i fields agent,
    raw_rows !! i = Some ("team1" :: fields)
    ∧ agents !! i = Some agent
    ∧ r = [current_date; map_name; agent] ++ fields.
Proof.
  unfold transform. intros Hr.
  apply list_elem_of_fmap in Hr as ([row agent] & -> & Hp).
  apply list_elem_of_filter in Hp as [Hteam Hp]. cbn in *.
  apply list_elem_of_lookup in Hp as [i Hi].
  apply lookup_zip_with_Some in Hi as (row' & agent' & [= <- <-] & Hrow & Hagent).
  destruct row as [|team fields]; [done|]. cbn in Hteam. injection Hteam as ->.
  by exists i, fields, agent.
Qed.
End transformer.

Section transformer_run.
Context `{Externals}.

Lemma clean_output_ok (current_date : string) (x : extraction) :
  Forall (λ row, row ≠ []) (output x) →
  length (output x) ≤ length (agents x) →
  clean_output current_date x =
  Ok (transform (output x) (agents x) (map_name x) current_date).
Proof.
  intros Hrows Hlen. unfold clean_output.
  rewrite merge_ok by done. cbn.
  rewrite filter_team1_enriched. cbn.
  by rewrite clean_enriched.
Qed.

Lemma clean_output_inv (current_date : string) (x : extraction) (r : table) :
  clean_output current_date x = Ok r →
  r = transform (output x) (agents x) (map_name x) current_date
  ∧ Forall (λ row, row ≠ []) (output x)
  ∧ length (output x) ≤ length (agents x).
Proof.
  intros Hr.
  destruct (merge current_date (map_name x) (agents x) 0 (output x) [])
    as [e|merged] eqn:Hm.
  { unfold clean_output in Hr. by rewrite Hm in Hr. }
  apply merge_inv in Hm as [Hrows Hlen]. rewrite Nat.sub_0_r in Hlen.
  rewrite clean_output_ok in Hr by done. by injection Hr as <-.
Qed.

Lemma stored_appended (store : option table) (r : table) :
  stored (appended store r) = stored store ++ r.
Proof. destruct r; cbn; [by rewrite app_nil_r | done]. Qed.

(** What a screenshot that is processed without an exception leaves in the
    store. *)
Lemma process_screenshot_store (maps : json) (filename : string) (w w' : world)
    (x : extraction) :
  extract maps filename = Ok x →
  process_screenshot maps filename w = (Ok tt, w') →
  stored (scoreboard_csv w') =
  stored (scoreboard_csv w)
    ++ transform (output x) (agents x) (map_name x) (current_date filename).
Proof.
  intros Hx Hrun.
  destruct (process_screenshot_rows maps filename w) as [out Hout].
  rewrite Hrun in Hout. unfold rows in Hout. rewrite Hx in Hout. cbn in Hout.
  destruct (clean_output (current_date filename) x) as [e|r] eqn:Hr; [done|].
  apply clean_output_inv in Hr as (-> & _ & _).
  injection Hout as ->. cbn [with_store set_console set_scoreboard_csv scoreboard_csv].
  apply stored_appended.
Qed.

Lemma process_screenshot_returns (maps : json) (filename : string) (w : world)
    (x : extraction) :
  extract maps filename = Ok x →
  Forall (λ row, row ≠ []) (output x) →
  length (output x) ≤ length (agents x) →
  ∃ w', process_screenshot maps filename w = (Ok tt, w').
Proof.
  intros Hx Hrows Hlen.
  destruct (process_screenshot_rows maps filename w) as [out Hout].
  unfold rows in Hout. rewrite Hx in Hout. cbn in Hout.
  rewrite clean_output_ok in Hout by done. eauto.
Qed.
End transformer_run.

(** ** Lemmas on the configuration *)

Section configuration.
Context `{Externals}.

Lemma run_loaded_maps (w : world) : loaded_maps (run w) = loaded_maps w.
Proof.
  unfold loaded_maps. rewrite run_config. unfold final_config.
  destruct (config_ini w) as [f|]; [done|].
  by destruct (tesseract_ready w).
Qed.

End configuration.

(** ** Team filter *)

(** C1.  For every screenshot the library extracts, the rows the loop body
    appends to the store are those of the specification's transform: one row
    per raw row whose team tag is ['team1'], in their order, and none that
    comes from a row of another team; the body returns whenever every raw row
    carries its tag and has an agent.  On the screenshot of the example the
    run leaves exactly the line 01/01/2024,Ascent,Jett,10,2,5. *)
Theorem team_filter_correct :
  (∀ (E : Externals) (maps : json) (filename : string) (x : extraction) (w : world),
     extract maps filename = Ok x →
     (∀ w', process_screenshot maps filename w = (Ok tt, w') →
        stored (scoreboard_csv w') =
        stored (scoreboard_csv w)
          ++ transform (output x) (agents x) (map_name x) (current_date filename))
     ∧ (Forall (λ row, row ≠ []) (output x) →
        length (output x) ≤ length (agents x) →
        ∃ w', process_screenshot maps filename w = (Ok tt, w'))
     ∧ (∀ r, r ∈ transform (output x) (agents x) (map_name x) (current_date filename) →
        ∃ i fields agent,
          output x !! i = Some ("team1" :: fields)
          ∧ agents x !! i = Some agent
          ∧ r = [current_date filename; map_name x; agent] ++ fields))
  ∧ (let w' := @run (Stub.dated "01/01/2024") (Stub.machine (Some ["shot1.png"])) in
     scoreboard_csv w' = Some [["01/01/2024"; "Ascent"; "Jett"; "10"; "2"; "5"]]
     ∧ csv_line <$> stored (scoreboard_csv w') = ["01/01/2024,Ascent,Jett,10,2,5"]).
Proof.
  split.
  - intros E maps filename x w Hx. split_and!.
    + intros w' Hrun. by apply (process_screenshot_store maps).
    + intros Hrows Hlen. by apply (process_screenshot_returns maps filename w x).
    + intros r Hr. by apply transform_origin.
  - by vm_compute.
Qed.

Lemma team_filter_correct_witness :
  let E := Stub.dated "01/01/2024" in
  let x := {| map_name := "Ascent"; agents := ["Jett"; "Sova"];
              output := [["team1"; "10"; "2"; "5"]; ["team2"; "8"; "3"; "4"]] |} in
  ∃ w', @process_screenshot E (JArray []) "shot1.png" (Stub.machine None) = (Ok tt, w')
        ∧ stored (scoreboard_csv w') =
          transform (output x) (agents x) (map_name x) "01/01/2024".
Proof.
  intros E x.
  destruct (proj1 team_filter_correct E (JArray []) "shot1.png" x (Stub.machine None))
    as (Hstore & Hreturns & _); [reflexivity|].
  destruct Hreturns as [w' Hw'].
  - repeat constructor; discriminate.
  - cbn. lia.
  - exists w'. split; [exact Hw' | exact (Hstore w' Hw')].
Defined.

(** ** Schema *)

(** C2.  Every row the loop body appends to the store for a screenshot comes
    from a raw row of team 1 with [k] player fields and is the date, the map
    and the agent of that row followed by its [k] player fields in their
    order: [3 + k] columns, the team tag not among them. *)
Theorem schema_invariant `{Externals} (maps : json) (filename : string)
    (x : extraction) (w w' : world) :
  extract maps filename = Ok x →
  process_screenshot maps filename w = (Ok tt, w') →
  ∃ clean_rows,
    stored (scoreboard_csv w') = stored (scoreboard_csv w) ++ clean_rows
    ∧ Forall (λ r, ∃ i fields agent,
                output x !! i = Some ("team1" :: fields)
                ∧ agents x !! i = Some agent
                ∧ r = current_date filename :: map_name x :: agent :: fields
                ∧ length r = 3 + length fields) clean_rows.
Proof.
  intros Hx Hrun.
  exists (transform (output x) (agents x) (map_name x) (current_date filename)).
  split; [by apply (process_screenshot_store maps)|].
  apply Forall_forall. intros r Hr.
  apply transform_origin in Hr as (i & fields & agent & Hrow & Hagent & ->).
  by exists i, fields, agent.
Qed.

Lemma schema_invariant_witness :
  let E := Stub.dated "01/01/2024" in
  let x := {| map_name := "Bind"; agents := ["Omen"; "Sage"];
              output := [["team1"; "7"; "7"; "1"]; ["team1"; "3"; "9"; "0"]] |} in
  let w := Stub.machine None in
  let w' := (@process_screenshot E (JArray []) "shot2.png" w).2 in
  ∃ clean_rows,
    stored (scoreboard_csv w') = stored (scoreboard_csv w) ++ clean_rows
    ∧ Forall (λ r, ∃ i fields agent,
                output x !! i = Some ("team1" :: fields)
                ∧ agents x !! i = Some agent
                ∧ r = "01/01/2024" :: map_name x :: agent :: fields
                ∧ length r = 3 + length fields) clean_rows.
Proof.
  intros E x w w'.
  apply (@schema_invariant E (JArray []) "shot2.png" x w w'); reflexivity.
Defined.

(** ** Append ordering *)

(** C3.  In a run that gets to the loop (the store of an earlier run, if
    any, has been removed) and processes every screenshot of the folder
    without an exception, the rows of the output artifact are the
    concatenation, in processing order, of the rows produced per screenshot;
    when there is a row at all, the clean-up goes through and neither the
    reading of the store nor the copy fails, that content is the file, it is
    what the clipboard receives, and the run reports success. *)
Theorem append_ordering `{Externals} (w : world) (maps : json)
    (listing : list string) (rowss : list table) :
  tesseract_ready w = true →
  loaded_maps w = Ok maps →
  reset_error w = None →
  screenshots w = Some listing →
  Forall2 (λ f r, rows maps f = Ok r) (png_files listing) rowss →
  stored (scoreboard_csv (run w)) = concat rowss
  ∧ (concat rowss ≠ [] → temp_headshot w ≠ TempLocked → publish_error w = None →
     scoreboard_csv (run w) = Some (concat rowss)
     ∧ clipboard (run w) = Some (concat rowss)
     ∧ reports_success (run w)).
Proof.
  intros Hready Hmaps Hreset Hshots Hall.
  destruct (run_loop_done w maps listing rowss) as (Hstore & Hverdict & _); try done.
  rewrite run_store, run_clipboard, Hstore. split.
  - by rewrite stored_foldl_appended.
  - intros Hrows Htemp Hpublish. rewrite foldl_appended_None in *.
    destruct (concat rowss) as [|row t] eqn:Hconcat; [done|].
    assert (Hv : verdict_of w = Succeeded (row :: t))
      by (rewrite Hverdict, Hpublish; by destruct (temp_headshot w)).
    split_and!; [done| |].
    + unfold final_clipboard. by rewrite Hv.
    + by apply (verdict_succeeded _ (row :: t)).
Qed.

(** The screenshots A, B, C of the claim: A with one row of team 1, B with
    none, C with two. *)
Lemma append_ordering_witness :
  let w := Stub.machine (Some ["shot1.png"; "enemies.png"; "shot2.png"]) in
  let rowss :=
    [ [["01/01/2024"; "Ascent"; "Jett"; "10"; "2"; "5"]];
      [];
      [["01/01/2024"; "Bind"; "Omen"; "7"; "7"; "1"];
       ["01/01/2024"; "Bind"; "Sage"; "3"; "9"; "0"]] ] in
  stored (scoreboard_csv (@run (Stub.dated "01/01/2024") w)) = concat rowss
  ∧ (concat rowss ≠ [] → temp_headshot w ≠ TempLocked → publish_error w = None →
     scoreboard_csv (@run (Stub.dated "01/01/2024") w) = Some (concat rowss)
     ∧ clipboard (@run (Stub.dated "01/01/2024") w) = Some (concat rowss)
     ∧ reports_success (@run (Stub.dated "01/01/2024") w)).
Proof.
  intros w rowss.
  apply (@append_ordering (Stub.dated "01/01/2024") w (JArray [])
           ["shot1.png"; "enemies.png"; "shot2.png"] rowss);
    [reflexivity | reflexivity | reflexivity | reflexivity | ].
  repeat constructor.
Defined.

(** ** Fail-fast propagation *)

(** C4.  In a run that gets to the loop, when the table segmentation raises
    [e] for screenshot [b], processed after the screenshots [pre] and before
    [post], the artifact holds the rows of [pre] and nothing else, nothing is
    published, and the run reports the error and not success. *)
Theorem fail_fast `{Externals} (w : world) (maps : json)
    (listing pre post : list string) (b m : string) (rowss : list table) (e : exn) :
  tesseract_ready w = true →
  loaded_maps w = Ok maps →
  reset_error w = None →
  screenshots w = Some listing →
  png_files listing = pre ++ b :: post →
  Forall2 (λ f r, rows maps f = Ok r) pre rowss →
  find_map_name (imread b true) maps = Ok m →
  find_tables (imread b true) (imread b false) = Raise e →
  stored (scoreboard_csv (run w)) = concat rowss
  ∧ clipboard (run w) = clipboard w
  ∧ reports_error e (run w)
  ∧ ¬ reports_success (run w).
Proof.
  intros Hready Hmaps Hreset Hshots Hpng Hpre Hm Ht.
  apply (run_fails_at w maps listing pre post b rowss e); try done.
  by apply (find_tables_raises maps b m).
Qed.

Lemma fail_fast_witness :
  let w := Stub.machine (Some ["shot1.png"; "blank.png"; "shot2.png"]) in
  let e := LibraryError "TableNotFoundError" "no scoreboard table" in
  stored (scoreboard_csv (@run (Stub.dated "01/01/2024") w))
    = concat [[["01/01/2024"; "Ascent"; "Jett"; "10"; "2"; "5"]]]
  ∧ clipboard (@run (Stub.dated "01/01/2024") w) = clipboard w
  ∧ reports_error e (@run (Stub.dated "01/01/2024") w)
  ∧ ¬ reports_success (@run (Stub.dated "01/01/2024") w).
Proof.
  intros w e.
  apply (@fail_fast (Stub.dated "01/01/2024") w (JArray [])
           ["shot1.png"; "blank.png"; "shot2.png"] ["shot1.png"] ["shot2.png"]
           "blank.png" "Unknown"
           [[["01/01/2024"; "Ascent"; "Jett"; "10"; "2"; "5"]]] e);
    try reflexivity.
  repeat constructor.
Defined.

(** ** A folder without screenshots *)

(** C5.  The code at a screenshot folder that exists and holds no PNG file
    (an empty one, and one with another file): the loop has nothing to do,
    the run goes on to read [scoreboard.csv], which does not exist, and
    reports that error; it does not take the branch that reports that there
    is nothing to process. *)
Theorem empty_folder_reports_error :
  let empty := @run (Stub.dated "01/01/2024") (Stub.machine (Some [])) in
  let notes := @run (Stub.dated "01/01/2024") (Stub.machine (Some ["notes.txt"])) in
  (reports_error (FileNotFoundError "scoreboard.csv") empty
   ∧ ¬ reports_nothing_to_do empty
   ∧ ¬ reports_success empty)
  ∧ (reports_error (FileNotFoundError "scoreboard.csv") notes
     ∧ ¬ reports_nothing_to_do notes
     ∧ ¬ reports_success notes).
Proof.
  intros empty notes.
  assert (He : reports_error (FileNotFoundError "scoreboard.csv") empty)
    by (by apply verdict_failed).
  assert (Hn : reports_error (FileNotFoundError "scoreboard.csv") notes)
    by (by apply verdict_failed).
  split_and!; try done.
  - by apply (error_not_nothing_to_do (FileNotFoundError "scoreboard.csv")).
  - by apply (error_not_success (FileNotFoundError "scoreboard.csv")).
  - by apply (error_not_nothing_to_do (FileNotFoundError "scoreboard.csv")).
  - by apply (error_not_success (FileNotFoundError "scoreboard.csv")).
Qed.

(** The other half of the claim holds: without a screenshot folder the run
    ends early and reports that there is nothing to process. *)
Lemma missing_folder_nothing_to_do `{Externals} (w : world) (maps : json) :
  tesseract_ready w = true →
  loaded_maps w = Ok maps →
  reset_error w = None →
  screenshots w = None →
  reports_nothing_to_do (run w)
  ∧ scoreboard_csv (run w) = None
  ∧ clipboard (run w) = clipboard w.
Proof.
  intros Hready Hmaps Hreset Hshots.
  assert (Hv : verdict_of w = NothingToDo)
    by (unfold verdict_of; by rewrite Hready, Hmaps, Hreset, Hshots).
  split_and!.
  - by apply verdict_nothing_to_do.
  - rewrite run_store. unfold final_store. by rewrite Hready, Hmaps, Hreset, Hshots.
  - rewrite run_clipboard. unfold final_clipboard. by rewrite Hv.
Qed.

(** ** Reset of the store *)

(** C6, as the claim states it, fails twice.  The store is removed after the
    configuration is loaded, not at the start: a run that stops on its
    configuration leaves the stale artifact in place.  And the date in each
    row is read from the clock: two runs against the same folder, with the
    same extraction, leave different artifacts when the date has changed
    between them. *)
Lemma stale_and_dated_artifacts :
  let stale := [["31/12/2023"; "Icebox"; "Viper"; "1"; "1"; "1"]] in
  let w := set_scoreboard_csv (Some stale) (Stub.machine (Some ["shot1.png"])) in
  scoreboard_csv (@run (Stub.dated "01/01/2024") (set_config_ini (Some Unparsable) w))
    = Some stale
  ∧ scoreboard_csv (@run (Stub.dated "01/01/2024") w)
    = Some [["01/01/2024"; "Ascent"; "Jett"; "10"; "2"; "5"]]
  ∧ scoreboard_csv (@run (Stub.dated "02/01/2024") (@run (Stub.dated "01/01/2024") w))
    = Some [["02/01/2024"; "Ascent"; "Jett"; "10"; "2"; "5"]]
  ∧ scoreboard_csv (@run (Stub.dated "02/01/2024") (@run (Stub.dated "01/01/2024") w))
    ≠ scoreboard_csv (@run (Stub.dated "01/01/2024") w).
Proof. by vm_compute. Qed.

(** C6, amended.  The prior artifact is removed at line 118: after the
    set-up of Tesseract and the loading of the configuration, before any
    screenshot is processed.  A run that stops before that line leaves the
    artifact as it was.  A run in which [os.remove] refuses the removal stops
    at that line: it reports the error of the removal, processes no
    screenshot and leaves the artifact, the temporary file and the clipboard
    as they were.  In every other run the artifact left does not depend on
    the prior one.  And a second run against the same folder, with the same
    extraction and the same dates, leaves the artifact of the first. *)
Theorem reset_idempotent `{Externals} (w : world) :
  (∀ maps old,
     tesseract_ready w = true →
     loaded_maps w = Ok maps →
     reset_error (set_scoreboard_csv old w) = None →
     scoreboard_csv (run (set_scoreboard_csv old w)) =
     scoreboard_csv (run (set_scoreboard_csv None w)))
  ∧ (tesseract_ready w = false ∨ (∃ e, loaded_maps w = Raise e) →
     scoreboard_csv (run w) = scoreboard_csv w)
  ∧ (∀ maps e,
       tesseract_ready w = true →
       loaded_maps w = Ok maps →
       reset_error w = Some e →
       scoreboard_csv (run w) = scoreboard_csv w
       ∧ temp_headshot (run w) = temp_headshot w
       ∧ clipboard (run w) = clipboard w
       ∧ reports_error e (run w)
       ∧ ¬ reports_success (run w))
  ∧ scoreboard_csv (run (run w)) = scoreboard_csv (run w).
Proof.
  split_and!.
  - intros maps old Hready Hmaps Hreset. rewrite !run_store. unfold final_store.
    rewrite Hreset.
    replace (reset_error (set_scoreboard_csv None w)) with (@None exn)
      by reflexivity.
    replace (tesseract_ready (set_scoreboard_csv old w)) with (tesseract_ready w)
      by reflexivity.
    replace (tesseract_ready (set_scoreboard_csv None w)) with (tesseract_ready w)
      by reflexivity.
    replace (loaded_maps (set_scoreboard_csv old w)) with (loaded_maps w)
      by reflexivity.
    replace (loaded_maps (set_scoreboard_csv None w)) with (loaded_maps w)
      by reflexivity.
    by rewrite Hready, Hmaps.
  - rewrite run_store. unfold final_store.
    intros [-> | [e ->]]; [done|]. by destruct (tesseract_ready w).
  - intros maps e Hready Hmaps Hreset.
    assert (Hv : verdict_of w = Failed e)
      by (unfold verdict_of; by rewrite Hready, Hmaps, Hreset).
    rewrite run_store, run_temp, run_clipboard.
    unfold final_store, final_temp, final_clipboard, loop_result.
    rewrite Hv, Hready, Hmaps, Hreset.
    split_and!; [done | by destruct (temp_headshot w) | done | |].
    + by apply verdict_failed.
    + by apply (error_not_success e), verdict_failed.
  - rewrite (run_store (run w)). unfold final_store at 1.
    rewrite run_tesseract_ready, run_loaded_maps, run_screenshots.
    unfold reset_error at 1. rewrite (proj1 (run_faults w)), run_store.
    unfold final_store, reset_error.
    destruct (tesseract_ready w); [|done].
    destruct (loaded_maps w) as [e|maps]; [done|].
    destruct (scoreboard_csv w) as [old|], (remove_fault w) as [e|],
      (screenshots w) as [listing|]; try done.
    all: by destruct (batch maps (png_files listing) None).2.
Qed.

Lemma reset_idempotent_witness :
  let E := Stub.dated "01/01/2024" in
  let stale := [["31/12/2023"; "Icebox"; "Viper"; "1"; "1"; "1"]] in
  let w := Stub.machine (Some ["shot1.png"; "shot2.png"]) in
  let locked :=
    {| tesseract_dir := true; tesseract_exe := true; eng_traineddata := true;
       config_ini := None; scoreboard_csv := Some stale;
       screenshots := Some ["shot1.png"; "shot2.png"];
       temp_headshot := TempFile; clipboard := None; console := [];
       remove_fault := Some (PermissionError "scoreboard.csv");
       read_fault := None; copy_fault := None; stdin := 2 |} in
  scoreboard_csv (@run E (set_scoreboard_csv (Some stale) w)) =
  scoreboard_csv (@run E (set_scoreboard_csv None w))
  ∧ scoreboard_csv (@run E (set_config_ini (Some Unparsable) locked)) = Some stale
  ∧ (scoreboard_csv (@run E locked) = Some stale
     ∧ temp_headshot (@run E locked) = TempFile
     ∧ clipboard (@run E locked) = None
     ∧ reports_error (PermissionError "scoreboard.csv") (@run E locked)
     ∧ ¬ reports_success (@run E locked))
  ∧ scoreboard_csv (@run E (@run E w)) = scoreboard_csv (@run E w).
Proof.
  intros E stale w locked.
  destruct (@reset_idempotent E w) as (Hreset & _ & _ & Htwice).
  destruct (@reset_idempotent E (set_config_ini (Some Unparsable) locked))
    as (_ & Hearly & _ & _).
  destruct (@reset_idempotent E locked) as (_ & _ & Hrefused & _).
  split; [|split; [|split]].
  - apply (Hreset (JArray []) (Some stale)); reflexivity.
  - apply Hearly. right. by exists ParsingError.
  - apply (Hrefused (JArray []) (PermissionError "scoreboard.csv")); reflexivity.
  - exact Htwice.
Defined.

(** ** Configuration lifecycle *)




(** ** Index correspondence *)

(** C8.  When there are as many agents as raw rows, the subscript [agents[i]]
    of the merge never raises, and the merge returns one merged row per raw
    row as soon as every raw row carries its team tag.  When the agents are
    fewer, the merge raises an [IndexError] (at [agents[i]], line 157, when
    every raw row carries its tag); nothing catches it before [main] does:
    the run, which has got to the loop, reports it, holds the rows of the
    screenshots processed before, processes no other screenshot and publishes
    nothing. *)
Theorem index_correspondence `{Externals} :
  (∀ (current_date map_name : string) (agents : list string) (output : table),
     length output = length agents →
     (∀ e, merge current_date map_name agents 0 output [] = Raise e →
           e = IndexError 153)
     ∧ (Forall (λ row, row ≠ []) output →
        ∃ merged_output,
          merge current_date map_name agents 0 output [] = Ok merged_output
          ∧ length merged_output = length output))
  ∧ (∀ (current_date map_name : string) (agents : list string) (output : table),
       length agents < length output →
       ∃ line,
         merge current_date map_name agents 0 output [] = Raise (IndexError line)
         ∧ (Forall (λ row, row ≠ []) output → line = 157))
  ∧ (∀ (w : world) (maps : json) (listing pre post : list string) (b : string)
       (rowss : list table) (x : extraction),
       tesseract_ready w = true →
       loaded_maps w = Ok maps →
       reset_error w = None →
       screenshots w = Some listing →
       png_files listing = pre ++ b :: post →
       Forall2 (λ f r, rows maps f = Ok r) pre rowss →
       extract maps b = Ok x →
       length (agents x) < length (output x) →
       ∃ line,
         reports_error (IndexError line) (run w)
         ∧ ¬ reports_success (run w)
         ∧ stored (scoreboard_csv (run w)) = concat rowss
         ∧ clipboard (run w) = clipboard w).
Proof.
  split_and!.
  - intros d m ags out Hlen. split.
    + intros e He. apply merge_raises in He as [[-> _] | [_ ?]]; [done | lia].
    + intros Hrows. eexists. split; [apply merge_ok; [done | lia]|].
      cbn. rewrite length_fmap, length_zip, drop_0. lia.
  - intros d m ags out Hlen.
    destruct (merge_short d m ags out 0 []) as (line & Hm & _ & Hline); [lia | done |].
    by exists line.
  - intros w maps listing pre post b rowss x Hready Hmaps Hreset Hshots Hpng Hpre Hx Hlen.
    destruct (merge_short (current_date b) (map_name x) (agents x) (output x) 0 [])
      as (line & Hm & _); [lia | done |].
    exists line.
    assert (Hb : rows maps b = Raise (IndexError line)).
    { unfold rows, clean_output. rewrite Hx. cbn. by rewrite Hm. }
    destruct (run_fails_at w maps listing pre post b rowss _
                Hready Hmaps Hreset Hshots Hpng Hpre Hb) as (? & ? & ? & ?).
    done.
Qed.

Lemma index_correspondence_witness :
  let E := Stub.dated "01/01/2024" in
  let w := Stub.machine (Some ["shot1.png"; "short.png"; "shot2.png"]) in
  (∃ merged_output,
     merge "01/01/2024" "Ascent" ["Jett"; "Sova"] 0
       [["team1"; "10"; "2"; "5"]; ["team2"; "8"; "3"; "4"]] [] = Ok merged_output
     ∧ length merged_output = 2)
  ∧ (∃ line,
       merge "01/01/2024" "Split" ["Jett"] 0
         [["team1"; "1"; "2"; "3"]; ["team1"; "4"; "5"; "6"]] [] = Raise (IndexError line)
       ∧ line = 157)
  ∧ (∃ line,
       reports_error (IndexError line) (@run E w)
       ∧ ¬ reports_success (@run E w)
       ∧ stored (scoreboard_csv (@run E w))
         = concat [[["01/01/2024"; "Ascent"; "Jett"; "10"; "2"; "5"]]]
       ∧ clipboard (@run E w) = clipboard w).
Proof.
  intros E w.
  destruct (@index_correspondence E) as (Hequal & Hshort & Hrun).
  split_and!.
  - apply (Hequal "01/01/2024" "Ascent" ["Jett"; "Sova"]); [reflexivity|].
    repeat constructor; discriminate.
  - destruct (Hshort "01/01/2024" "Split" ["Jett"]
                [["team1"; "1"; "2"; "3"]; ["team1"; "4"; "5"; "6"]])
      as (line & Hm & Hline); [cbn; lia|].
    exists line. split; [exact Hm|]. apply Hline. repeat constructor; discriminate.
  - apply (Hrun w (JArray []) ["shot1.png"; "short.png"; "shot2.png"]
             ["shot1.png"] ["shot2.png"] "short.png"
             [[["01/01/2024"; "Ascent"; "Jett"; "10"; "2"; "5"]]]
             {| map_name := "Split"; agents := ["Jett"];
                output := [["team1"; "1"; "2"; "3"]; ["team1"; "4"; "5"; "6"]] |});
      try reflexivity.
    + repeat constructor.
    + cbn. lia.
Defined.

(** ** The clean-up of the finalizer *)

(** C9, as the claim states it, fails: with a [temp_headshot.png] that
    [os.remove] refuses, a run whose only screenshot was processed and written
    to the store reports the error of the removal, does not report success and
    publishes nothing. *)
Lemma cleanup_failure_escalates :
  let w := set_temp_headshot TempLocked (Stub.machine (Some ["shot1.png"])) in
  let w' := @run (Stub.dated "01/01/2024") w in
  scoreboard_csv w' = Some [["01/01/2024"; "Ascent"; "Jett"; "10"; "2"; "5"]]
  ∧ reports_error (PermissionError "temp_headshot.png") w'
  ∧ ¬ reports_success w'
  ∧ clipboard w' = None.
Proof.
  intros w w'.
  assert (Herr : reports_error (PermissionError "temp_headshot.png") w')
    by (by apply verdict_failed).
  split_and!; [by vm_compute | done | | by vm_compute].
  by apply (error_not_success (PermissionError "temp_headshot.png")).
Qed.

(** C9, amended.  The removal of [temp_headshot.png] is guarded by a test
    of existence and by nothing else.  In a run whose loop has processed
    every screenshot: when the file is absent, or is removed, it is gone
    afterwards and the run goes on to read the store; with at least one row
    written, and neither the reading nor the copy failing, the whole store is
    copied to the clipboard and the run reports success; with no row written
    the store does not exist, the run reports the error of its reading and
    publishes nothing; when the reading or the copy fails the run reports
    that error and publishes nothing.  When the removal itself fails, its
    error is reported, success is not, and nothing is published. *)
Theorem cleanup_guarded_by_existence `{Externals} (w : world) (maps : json)
    (listing : list string) (rowss : list table) :
  tesseract_ready w = true →
  loaded_maps w = Ok maps →
  reset_error w = None →
  screenshots w = Some listing →
  Forall2 (λ f r, rows maps f = Ok r) (png_files listing) rowss →
  (temp_headshot w ≠ TempLocked →
     temp_headshot (run w) = TempAbsent
     ∧ (concat rowss ≠ [] → publish_error w = None →
        clipboard (run w) = Some (concat rowss)
        ∧ scoreboard_csv (run w) = Some (concat rowss)
        ∧ reports_success (run w))
     ∧ (concat rowss = [] →
        clipboard (run w) = clipboard w
        ∧ reports_error (FileNotFoundError "scoreboard.csv") (run w)
        ∧ ¬ reports_success (run w))
     ∧ (∀ e, concat rowss ≠ [] → publish_error w = Some e →
        clipboard (run w) = clipboard w
        ∧ reports_error e (run w)
        ∧ ¬ reports_success (run w)))
  ∧ (temp_headshot w = TempLocked →
     temp_headshot (run w) = TempLocked
     ∧ clipboard (run w) = clipboard w
     ∧ reports_error (PermissionError "temp_headshot.png") (run w)
     ∧ ¬ reports_success (run w)).
Proof.
  intros Hready Hmaps Hreset Hshots Hall.
  destruct (run_loop_done w maps listing rowss) as (Hstore & Hverdict & Htemp);
    try done.
  rewrite run_temp, run_clipboard, run_store, Htemp, Hstore.
  rewrite foldl_appended_None in *.
  unfold final_clipboard. split.
  - intros Hfree. split_and!.
    + by destruct (temp_headshot w).
    + intros Hrows Hpublish.
      destruct (concat rowss) as [|row t] eqn:Hconcat; [done|].
      assert (Hv : verdict_of w = Succeeded (row :: t))
        by (rewrite Hverdict, Hpublish; by destruct (temp_headshot w)).
      rewrite Hv. split_and!; [done | done |].
      by apply (verdict_succeeded _ (row :: t)).
    + intros Hrows. rewrite Hrows in Hverdict.
      assert (Hv : verdict_of w = Failed (FileNotFoundError "scoreboard.csv"))
        by (rewrite Hverdict; by destruct (temp_headshot w)).
      rewrite Hv. split_and!; [done | by apply verdict_failed |].
      by apply (error_not_success (FileNotFoundError "scoreboard.csv")), verdict_failed.
    + intros e Hrows Hpublish.
      destruct (concat rowss) as [|row t] eqn:Hconcat; [done|].
      assert (Hv : verdict_of w = Failed e)
        by (rewrite Hverdict, Hpublish; by destruct (temp_headshot w)).
      rewrite Hv. split_and!; [done | by apply verdict_failed |].
      by apply (error_not_success e), verdict_failed.
  - intros Hlocked.
    assert (Hv : verdict_of w = Failed (PermissionError "temp_headshot.png"))
      by (by rewrite Hverdict, Hlocked).
    rewrite Hv, Hlocked. split_and!; try done.
    + by apply verdict_failed.
    + by apply (error_not_success (PermissionError "temp_headshot.png")), verdict_failed.
Qed.

Lemma cleanup_guarded_by_existence_witness :
  let E := Stub.dated "01/01/2024" in
  let w := set_temp_headshot TempFile (Stub.machine (Some ["shot1.png"])) in
  let empty := set_temp_headshot TempFile (Stub.machine (Some ["enemies.png"])) in
  let mute :=
    {| tesseract_dir := true; tesseract_exe := true; eng_traineddata := true;
       config_ini := None; scoreboard_csv := None;
       screenshots := Some ["shot1.png"];
       temp_headshot := TempFile; clipboard := None; console := [];
       remove_fault := None; read_fault := None;
       copy_fault := Some PyperclipException; stdin := 2 |} in
  let locked := set_temp_headshot TempLocked (Stub.machine (Some ["enemies.png"])) in
  let rowss := [[["01/01/2024"; "Ascent"; "Jett"; "10"; "2"; "5"]]] in
  (temp_headshot (@run E w) = TempAbsent
   ∧ clipboard (@run E w) = Some (concat rowss)
   ∧ scoreboard_csv (@run E w) = Some (concat rowss)
   ∧ reports_success (@run E w))
  ∧ (temp_headshot (@run E empty) = TempAbsent
     ∧ clipboard (@run E empty) = None
     ∧ reports_error (FileNotFoundError "scoreboard.csv") (@run E empty)
     ∧ ¬ reports_success (@run E empty))
  ∧ (temp_headshot (@run E mute) = TempAbsent
     ∧ clipboard (@run E mute) = None
     ∧ reports_error PyperclipException (@run E mute)
     ∧ ¬ reports_success (@run E mute))
  ∧ (temp_headshot (@run E locked) = TempLocked
     ∧ clipboard (@run E locked) = None
     ∧ reports_error (PermissionError "temp_headshot.png") (@run E locked)
     ∧ ¬ reports_success (@run E locked)).
Proof.
  intros E w empty mute locked rowss.
  destruct (@cleanup_guarded_by_existence E w (JArray []) ["shot1.png"] rowss)
    as [Hfree _];
    [reflexivity | reflexivity | reflexivity | reflexivity | repeat constructor |].
  destruct (@cleanup_guarded_by_existence E empty (JArray []) ["enemies.png"] [[]])
    as [Hempty _];
    [reflexivity | reflexivity | reflexivity | reflexivity | repeat constructor |].
  destruct (@cleanup_guarded_by_existence E mute (JArray []) ["shot1.png"] rowss)
    as [Hmute _];
    [reflexivity | reflexivity | reflexivity | reflexivity | repeat constructor |].
  destruct (@cleanup_guarded_by_existence E locked (JArray []) ["enemies.png"] [[]])
    as [_ Hlocked];
    [reflexivity | reflexivity | reflexivity | reflexivity | repeat constructor |].
  destruct Hfree as (Ha & Hb & _); [discriminate|].
  destruct Hb as (Hb1 & Hb2 & Hb3); [discriminate | reflexivity |].
  destruct Hempty as (Hc & _ & Hd & _); [discriminate|].
  destruct Hd as (Hd1 & Hd2 & Hd3); [reflexivity|].
  destruct Hmute as (He & _ & _ & Hf); [discriminate|].
  destruct (Hf PyperclipException) as (Hf1 & Hf2 & Hf3); [discriminate | reflexivity |].
  destruct Hlocked as (Hl1 & Hl2 & Hl3 & Hl4); [reflexivity|].
  exact (conj (conj Ha (conj Hb1 (conj Hb2 Hb3)))
           (conj (conj Hc (conj Hd1 (conj Hd2 Hd3)))
              (conj (conj He (conj Hf1 (conj Hf2 Hf3)))
                 (conj Hl1 (conj Hl2 (conj Hl3 Hl4)))))).
Defined.

(** ** A run without a row of team 1 *)

(** C10.  In a run that gets to the loop, when the folder exists and no
    screenshot of it yields a row of team 1 (each one is extracted and merged
    without an exception, and the filter keeps nothing), the store is never
    created and nothing is
    published; the run does not report success but an error: the one of
    reading [scoreboard.csv], unless the removal of [temp_headshot.png] has
    failed before. *)
Theorem all_empty_run_fails `{Externals} (w : world) (maps : json)
    (listing : list string) :
  tesseract_ready w = true →
  loaded_maps w = Ok maps →
  reset_error w = None →
  screenshots w = Some listing →
  Forall (no_team1 maps) (png_files listing) →
  scoreboard_csv (run w) = None
  ∧ clipboard (run w) = clipboard w
  ∧ ¬ reports_success (run w)
  ∧ reports_error
      (match temp_headshot w with
       | TempLocked => PermissionError "temp_headshot.png"
       | _ => FileNotFoundError "scoreboard.csv"
       end) (run w).
Proof.
  intros Hready Hmaps Hreset Hshots Hall.
  set (e := match temp_headshot w with TempLocked => _ | _ => _ end).
  assert (Hv : verdict_of w = Failed e).
  { unfold verdict_of. rewrite Hready, Hmaps, Hreset, Hshots, (batch_nothing _ _ _ Hall).
    subst e. by destruct (temp_headshot w). }
  split_and!.
  - rewrite run_store. unfold final_store.
    by rewrite Hready, Hmaps, Hreset, Hshots, (batch_nothing _ _ _ Hall).
  - rewrite run_clipboard. unfold final_clipboard. by rewrite Hv.
  - by apply (error_not_success e), verdict_failed.
  - by apply verdict_failed.
Qed.

Lemma all_empty_run_fails_witness :
  let w := Stub.machine (Some ["enemies.png"; "readme.txt"]) in
  let w' := @run (Stub.dated "01/01/2024") w in
  scoreboard_csv w' = None
  ∧ clipboard w' = clipboard w
  ∧ ¬ reports_success w'
  ∧ reports_error (FileNotFoundError "scoreboard.csv") w'.
Proof.
  intros w w'.
  apply (@all_empty_run_fails (Stub.dated "01/01/2024") w (JArray [])
           ["enemies.png"; "readme.txt"]);
    [reflexivity | reflexivity | reflexivity | reflexivity | ].
  repeat constructor.
  by exists {| map_name := "Haven"; agents := ["Raze"];
               output := [["team2"; "20"; "1"; "3"]] |},
            [["01/01/2024"; "team2"; "Haven"; "Raze"; "20"; "1"; "3"]].
Defined.

(** * Further properties of the code *)

(** ** The outcome a run reports *)

Section reports.
Context `{Externals}.

(** The last lines of the console tell the outcome. *)
Lemma closing_determines (v1 v2 : verdict) (l : list event) :
  closing v1 `suffix_of` l →
  closing v2 `suffix_of` l →
  closing v1 = closing v2.
Proof.
  intros H1 H2.
  destruct (suffix_weak_total _ _ _ H1 H2) as [[k Hk] | [k Hk]];
    destruct v1, v2; cbn in *;
    destruct k as [|? [|? [|? [|? k]]]]; by simplify_eq/=.
Qed.

Lemma reports_success_verdict (w : world) :
  reports_success (run w) → ∃ data, verdict_of w = Succeeded data.
Proof.
  intros Hs.
  pose proof (closing_determines (Succeeded []) (verdict_of w) _ Hs (run_closing w)) as Hc.
  destruct (verdict_of w); try done. by eexists.
Qed.

Lemma reports_error_verdict (w : world) (e : exn) :
  reports_error e (run w) → verdict_of w = Failed e.
Proof.
  intros Hs.
  pose proof (closing_determines (Failed e) (verdict_of w) _ Hs (run_closing w)) as Hc.
  destruct (verdict_of w); try done. by injection Hc as ->.
Qed.




Lemma batch_ok_inv (maps : json) (files : list string) (store s : option table) :
  batch maps files store = (Ok tt, s) →
  ∃ rowss, Forall2 (λ f r, rows maps f = Ok r) files rowss
           ∧ s = foldl appended store rowss.
Proof.
  revert store. induction files as [|f files IH]; intros store; cbn.
  - intros [= <-]. by exists [].
  - destruct (rows maps f) as [e|r] eqn:Hf; [done|].
    intros Hrest. apply IH in Hrest as (rowss & Hall & ->).
    exists (r :: rowss). split; [by constructor | done].
Qed.

(** What [verdict_of] asks of a world for a success. *)
Lemma verdict_succeeded_inv (w : world) (data : table) :
  verdict_of w = Succeeded data →
  tesseract_ready w = true
  ∧ reset_error w = None
  ∧ temp_headshot w ≠ TempLocked
  ∧ publish_error w = None
  ∧ data ≠ []
  ∧ final_store w = Some data
  ∧ ∃ maps listing rowss,
      loaded_maps w = Ok maps
      ∧ screenshots w = Some listing
      ∧ Forall2 (λ f r, rows maps f = Ok r) (png_files listing) rowss
      ∧ concat rowss = data.
Proof.
  unfold verdict_of, final_store.
  destruct (tesseract_ready w); [|by destruct (stdin w)].
  destruct (loaded_maps w) as [e|maps]; [done|].
  destruct (reset_error w) as [e|]; [done|].
  destruct (screenshots w) as [listing|]; [|done].
  destruct (batch maps (png_files listing) None) as [[e|[]] store] eqn:Hbatch;
    [by destruct (temp_headshot w)|].
  apply batch_ok_inv in Hbatch as (rowss & Hall & ->).
  rewrite foldl_appended_None. cbn [snd].
  destruct (concat rowss) as [|row t] eqn:Hconcat;
    [by destruct (temp_headshot w)|].
  destruct (publish_error w) as [e|]; [by destruct (temp_headshot w)|].
  destruct (temp_headshot w) eqn:Htemp; try done; intros [= <-];
    (split_and!; [done..|]); by exists maps, listing, rowss.
Qed.
End reports.


(** X10.  A run reports success only when Tesseract is in place, the
    configuration loads, the store of an earlier run (if any) is removed, the
    screenshot folder exists, every PNG file of it is processed without an
    exception, at least one row of team 1 is found in all of them, the
    removal of [temp_headshot.png] is not refused, and neither the reading of
    the store nor the copy to the clipboard fails. *)
Theorem success_only_when `{Externals} (w : world) :
  reports_success (run w) →
  tesseract_ready w = true
  ∧ reset_error w = None
  ∧ temp_headshot w ≠ TempLocked
  ∧ publish_error w = None
  ∧ ∃ maps listing rowss,
      loaded_maps w = Ok maps
      ∧ screenshots w = Some listing
      ∧ Forall2 (λ f r, rows maps f = Ok r) (png_files listing) rowss
      ∧ concat rowss ≠ [].
Proof.
  intros [data Hv]%reports_success_verdict.
  apply verdict_succeeded_inv in Hv
    as (Hready & Hreset & Htemp & Hpublish & Hdata & _
        & maps & listing & rowss & ? & ? & ? & Hc).
  split_and!; [done..|]. exists maps, listing, rowss. by rewrite Hc.
Qed.

(** X11.  The clipboard receives a text only in a run that reports success,
    and then it is the whole content of [scoreboard.csv], which is not
    empty; every other run leaves the clipboard as it was. *)
Theorem published_only_on_success `{Externals} (w : world) :
  (reports_success (run w) →
     clipboard (run w) = scoreboard_csv (run w)
     ∧ ∃ row data, scoreboard_csv (run w) = Some (row :: data))
  ∧ (¬ reports_success (run w) → clipboard (run w) = clipboard w).
Proof.
  rewrite run_clipboard, run_store. unfold final_clipboard. split.
  - intros [data Hv]%reports_success_verdict. rewrite Hv.
    apply verdict_succeeded_inv in Hv as (_ & _ & _ & _ & Hdata & -> & _).
    split; [done|]. destruct data as [|row data]; [done|]. by exists row, data.
  - intros Hno. destruct (verdict_of w) as [| | |data] eqn:Hv; try done.
    destruct Hno. by apply (verdict_succeeded w data).
Qed.


Lemma success_only_when_witness :
  let E := Stub.dated "01/01/2024" in
  let w := Stub.machine (Some ["enemies.png"; "shot2.png"]) in
  tesseract_ready w = true
  ∧ reset_error w = None
  ∧ temp_headshot w ≠ TempLocked
  ∧ publish_error w = None
  ∧ ∃ maps listing rowss,
      loaded_maps w = Ok maps
      ∧ screenshots w = Some listing
      ∧ Forall2 (λ f r, @rows E maps f = Ok r) (png_files listing) rowss
      ∧ concat rowss ≠ [].
Proof.
  intros E w.
  apply (@success_only_when E w).
  by apply (verdict_succeeded w
              [["01/01/2024"; "Bind"; "Omen"; "7"; "7"; "1"];
               ["01/01/2024"; "Bind"; "Sage"; "3"; "9"; "0"]]).
Defined.

Lemma published_only_on_success_witness :
  let E := Stub.dated "01/01/2024" in
  let w := Stub.machine (Some ["shot1.png"]) in
  clipboard (@run E w) = scoreboard_csv (@run E w)
  ∧ ∃ row data, scoreboard_csv (@run E w) = Some (row :: data).
Proof.
  intros E w.
  apply (proj1 (@published_only_on_success E w)).
  by apply (verdict_succeeded w [["01/01/2024"; "Ascent"; "Jett"; "10"; "2"; "5"]]).
Defined.

(** ** A run without Tesseract *)

(** X1.  When the Tesseract folder, its executable or its language file is
    missing, [main] reads no configuration, removes no store and looks at no
    screenshot: it prints three lines and prompts twice, at line 99 and in
    the [finally] clause.  With a line of standard input for each prompt it
    returns.  When standard input ends after one line, the [EOFError] of the
    last prompt leaves [main].  When standard input is at its end from the
    start, the [EOFError] of line 99 is caught and reported as the error of
    the run, and that of the last prompt leaves [main]. *)
Theorem tesseract_missing_run `{Externals} (w : world) :
  tesseract_dir w = false ∨ tesseract_exe w = false ∨ eng_traineddata w = false →
  let lines :=
    [Status "Initializing VALScoreboardTracker...";
     Status "Setting up Tesseract OCR...";
     Status "Failed to initialize Tesseract OCR. Please ensure it's properly installed."] in
  (∀ rest, stdin w = S (S rest) →
     main w =
     (Ok tt,
      set_stdin rest (set_console (console w ++ lines ++ [PressEnter; PressEnter]) w)))
  ∧ (stdin w = 1 →
     main w =
     (Raise EOFError,
      set_stdin 0 (set_console (console w ++ lines ++ [PressEnter; PressEnter]) w)))
  ∧ (stdin w = 0 →
     main w =
     (Raise EOFError,
      set_console
        (console w ++ lines ++
         [PressEnter; ErrorOccurred EOFError;
          Status "Please check the error message above and try again";
          PressEnter]) w)).
Proof.
  intros Hmissing lines.
  assert (Hready : tesseract_ready w = false).
  { unfold tesseract_ready.
    destruct Hmissing as [-> | [-> | ->]]; by rewrite ?andb_false_r. }
  subst lines. split_and!; [intros rest Hin | intros Hin | intros Hin].
  all: unfold main, main_try.
  all: unfold mbind at 1 2, M_bind at 1 2, print_status at 1, emit at 1, modify at 1.
  all: rewrite setup_tesseract_eq.
  all: replace (tesseract_ready (set_console _ w)) with (tesseract_ready w)
         by reflexivity.
  all: rewrite Hready; cbn [negb]; clear Hmissing Hready.
  all: destruct w as [? ? ? ? ? ? ? ? ? ? ? ? lines]; cbn [stdin] in Hin; subst lines.
  all: world_norm; rewrite <- ?app_assoc; reflexivity.
Qed.

Lemma tesseract_missing_run_witness :
  let w := {| tesseract_dir := true; tesseract_exe := true; eng_traineddata := false;
              config_ini := None; scoreboard_csv := Some [["stale"]];
              screenshots := Some ["shot1.png"]; temp_headshot := TempFile;
              clipboard := None; console := [];
              remove_fault := None; read_fault := None; copy_fault := None;
              stdin := 2 |} in
  @main (Stub.dated "01/01/2024") w =
  (Ok tt,
   set_stdin 0
     (set_console
        [Status "Initializing VALScoreboardTracker...";
         Status "Setting up Tesseract OCR...";
         Status "Failed to initialize Tesseract OCR. Please ensure it's properly installed.";
         PressEnter; PressEnter] w))
  ∧ @main (Stub.dated "01/01/2024") (set_stdin 0 w) =
    (Raise EOFError,
     set_console
       [Status "Initializing VALScoreboardTracker...";
        Status "Setting up Tesseract OCR...";
        Status "Failed to initialize Tesseract OCR. Please ensure it's properly installed.";
        PressEnter; ErrorOccurred EOFError;
        Status "Please check the error message above and try again";
        PressEnter] (set_stdin 0 w)).
Proof.
  intros w. split.
  - apply (proj1 (@tesseract_missing_run (Stub.dated "01/01/2024") w
                    (or_intror (or_intror eq_refl))) 0).
    reflexivity.
  - apply (proj2 (proj2 (@tesseract_missing_run (Stub.dated "01/01/2024") (set_stdin 0 w)
                           (or_intror (or_intror eq_refl))))).
    reflexivity.
Defined.

(** ** The configuration file after a run *)



(** ** A run without a screenshot folder *)

(** X13.  Without a screenshot folder, a run that has loaded its
    configuration still removes an existing [scoreboard.csv] before it
    reports that there is nothing to process; it leaves the clipboard and
    [temp_headshot.png] as they were.  When [os.remove] refuses the removal
    the run reports that error instead, and the store stays. *)
Theorem no_folder_still_resets `{Externals} (w : world) (maps : json) :
  tesseract_ready w = true →
  loaded_maps w = Ok maps →
  screenshots w = None →
  (reset_error w = None →
     scoreboard_csv (run w) = None
     ∧ clipboard (run w) = clipboard w
     ∧ temp_headshot (run w) = temp_headshot w
     ∧ reports_nothing_to_do (run w)
     ∧ ¬ reports_success (run w))
  ∧ (∀ e, reset_error w = Some e →
       scoreboard_csv (run w) = scoreboard_csv w
       ∧ clipboard (run w) = clipboard w
       ∧ temp_headshot (run w) = temp_headshot w
       ∧ reports_error e (run w)
       ∧ ¬ reports_nothing_to_do (run w)).
Proof.
  intros Hready Hmaps Hshots.
  rewrite run_store, run_clipboard, run_temp.
  unfold final_store, final_clipboard, final_temp, loop_result.
  rewrite Hready, Hmaps, Hshots. split.
  - intros Hreset.
    assert (Hv : verdict_of w = NothingToDo)
      by (unfold verdict_of; by rewrite Hready, Hmaps, Hreset, Hshots).
    rewrite Hv, Hreset.
    split_and!; [done | done | by destruct (temp_headshot w) | | ].
    + by apply verdict_nothing_to_do.
    + intros [d Hd]%reports_success_verdict. congruence.
  - intros e Hreset.
    assert (Hv : verdict_of w = Failed e)
      by (unfold verdict_of; by rewrite Hready, Hmaps, Hreset).
    rewrite Hv, Hreset.
    split_and!; [done | done | by destruct (temp_headshot w) | | ].
    + by apply verdict_failed.
    + by apply (error_not_nothing_to_do e), verdict_failed.
Qed.

Lemma no_folder_still_resets_witness :
  let E := Stub.dated "01/01/2024" in
  let stale := [["31/12/2023"; "Icebox"; "Viper"; "1"]] in
  let w := set_scoreboard_csv (Some stale)
             (set_temp_headshot TempFile (Stub.machine None)) in
  let locked :=
    {| tesseract_dir := true; tesseract_exe := true; eng_traineddata := true;
       config_ini := None; scoreboard_csv := Some stale; screenshots := None;
       temp_headshot := TempFile; clipboard := None; console := [];
       remove_fault := Some (PermissionError "scoreboard.csv");
       read_fault := None; copy_fault := None; stdin := 2 |} in
  (scoreboard_csv (@run E w) = None
   ∧ clipboard (@run E w) = clipboard w
   ∧ temp_headshot (@run E w) = temp_headshot w
   ∧ reports_nothing_to_do (@run E w)
   ∧ ¬ reports_success (@run E w))
  ∧ (scoreboard_csv (@run E locked) = scoreboard_csv locked
     ∧ clipboard (@run E locked) = clipboard locked
     ∧ temp_headshot (@run E locked) = temp_headshot locked
     ∧ reports_error (PermissionError "scoreboard.csv") (@run E locked)
     ∧ ¬ reports_nothing_to_do (@run E locked)).
Proof.
  intros E stale w locked. split.
  - apply (proj1 (@no_folder_still_resets E w (JArray []) eq_refl eq_refl eq_refl)).
    reflexivity.
  - apply (proj2 (@no_folder_still_resets E locked (JArray []) eq_refl eq_refl eq_refl)
             (PermissionError "scoreboard.csv")).
    reflexivity.
Defined.

(** ** The temporary file *)

(** X14.  [temp_headshot.png] is removed only after the loop has processed
    every screenshot (which it does not get to when the removal of an
    earlier store is refused), and then even when the run goes on to fail for
    want of a store; a run that meets an exception at a screenshot leaves the
    file where it is. *)
Theorem temp_file_removed_after_loop_only `{Externals} (w : world) (maps : json)
    (listing : list string) :
  tesseract_ready w = true →
  loaded_maps w = Ok maps →
  screenshots w = Some listing →
  (∀ rowss,
     reset_error w = None →
     Forall2 (λ f r, rows maps f = Ok r) (png_files listing) rowss →
     temp_headshot w = TempFile →
     temp_headshot (run w) = TempAbsent)
  ∧ (∀ pre b post rowss e,
       png_files listing = pre ++ b :: post →
       Forall2 (λ f r, rows maps f = Ok r) pre rowss →
       rows maps b = Raise e →
       temp_headshot (run w) = temp_headshot w).
Proof.
  intros Hready Hmaps Hshots. split.
  - intros rowss Hreset Hall Htemp.
    destruct (run_loop_done w maps listing rowss) as (_ & _ & Hfinal); try done.
    by rewrite run_temp, Hfinal, Htemp.
  - intros pre b post rowss e Hpng Hpre Hb.
    rewrite run_temp. unfold final_temp, loop_result.
    rewrite Hready, Hmaps, Hshots, Hpng, (batch_fails _ _ _ _ _ _ _ Hpre Hb).
    by destruct (reset_error w), (temp_headshot w).
Qed.

Lemma temp_file_removed_after_loop_only_witness :
  let E := Stub.dated "01/01/2024" in
  let w := set_temp_headshot TempFile (Stub.machine (Some ["enemies.png"])) in
  let w' := set_temp_headshot TempFile (Stub.machine (Some ["shot1.png"; "blank.png"])) in
  temp_headshot (@run E w) = TempAbsent
  ∧ temp_headshot (@run E w') = temp_headshot w'.
Proof.
  intros E w w'. split.
  - apply (proj1 (@temp_file_removed_after_loop_only E w (JArray []) ["enemies.png"]
                    eq_refl eq_refl eq_refl) [[]]); [reflexivity | | reflexivity].
    repeat constructor.
  - apply (proj2 (@temp_file_removed_after_loop_only E w' (JArray [])
                    ["shot1.png"; "blank.png"] eq_refl eq_refl eq_refl)
             ["shot1.png"] "blank.png" []
             [[["01/01/2024"; "Ascent"; "Jett"; "10"; "2"; "5"]]]
             (LibraryError "TableNotFoundError" "no scoreboard table"));
      [reflexivity | repeat constructor | reflexivity].
Defined.

(** ** Files that are not screenshots *)

Lemma png_files_idemp (listing : list string) :
  png_files (png_files listing) = png_files listing.
Proof.
  unfold png_files. rewrite list_filter_filter.
  apply list_filter_iff. intros f. tauto.
Qed.

(** X7.  The entries of the folder whose name does not end in [.png] play
    no part: a run on the whole listing leaves the same store, clipboard,
    temporary file and configuration, and makes the same report, as a run on
    the PNG files of the listing alone. *)
Theorem other_files_ignored `{Externals} (w : world) (listing : list string) :
  screenshots w = Some listing →
  let w' := set_screenshots (Some (png_files listing)) w in
  scoreboard_csv (run w') = scoreboard_csv (run w)
  ∧ clipboard (run w') = clipboard (run w)
  ∧ temp_headshot (run w') = temp_headshot (run w)
  ∧ config_ini (run w') = config_ini (run w)
  ∧ (reports_success (run w') ↔ reports_success (run w))
  ∧ (∀ e, reports_error e (run w') ↔ reports_error e (run w)).
Proof.
  intros Hshots. cbn zeta.
  set (w' := set_screenshots (Some (png_files listing)) w).
  assert (Hs : screenshots w' = Some (png_files listing)) by reflexivity.
  assert (Hr : tesseract_ready w' = tesseract_ready w) by reflexivity.
  assert (Hm : loaded_maps w' = loaded_maps w) by reflexivity.
  assert (Ht : temp_headshot w' = temp_headshot w) by reflexivity.
  assert (Hc : config_ini w' = config_ini w) by reflexivity.
  assert (Hsb : scoreboard_csv w' = scoreboard_csv w) by reflexivity.
  assert (Hcl : clipboard w' = clipboard w) by reflexivity.
  assert (Hre : reset_error w' = reset_error w) by reflexivity.
  assert (Hpe : publish_error w' = publish_error w) by reflexivity.
  assert (Hin : stdin w' = stdin w) by reflexivity.
  clearbody w'.
  assert (Hv : verdict_of w' = verdict_of w).
  { unfold verdict_of.
    by rewrite Hr, Hm, Hre, Hs, Ht, Hpe, Hin, Hshots, png_files_idemp. }
  rewrite !run_store, !run_clipboard, !run_temp, !run_config.
  unfold final_store, final_clipboard, final_temp, final_config, loop_result.
  rewrite Hv, Hr, Hm, Hre, Hs, Ht, Hc, Hsb, Hcl, Hshots, png_files_idemp.
  split_and!; [done | done | done | done | | ].
  - split; intros [d Hd]%reports_success_verdict;
      apply (verdict_succeeded _ d); congruence.
  - intros e. split; intros He%reports_error_verdict;
      apply verdict_failed; congruence.
Qed.

Lemma other_files_ignored_witness :
  let E := Stub.dated "01/01/2024" in
  let w := Stub.machine (Some ["notes.txt"; "shot1.png"; "shots"; "shot2.png"]) in
  let w' := set_screenshots (Some ["shot1.png"; "shot2.png"]) w in
  scoreboard_csv (@run E w') = scoreboard_csv (@run E w)
  ∧ clipboard (@run E w') = clipboard (@run E w)
  ∧ temp_headshot (@run E w') = temp_headshot (@run E w)
  ∧ config_ini (@run E w') = config_ini (@run E w)
  ∧ (reports_success (@run E w') ↔ reports_success (@run E w))
  ∧ (∀ e, reports_error e (@run E w') ↔ reports_error e (@run E w)).
Proof.
  intros E w w'.
  apply (@other_files_ignored E w ["notes.txt"; "shot1.png"; "shots"; "shot2.png"]).
  reflexivity.
Defined.

(** ** Agents beyond the rows *)

Lemma merge_surplus (current_date map_name : string) (agents extra : list string)
    (output : table) (i : nat) (acc : table) :
  i + length output ≤ length agents →
  merge current_date map_name (agents ++ extra) i output acc =
  merge current_date map_name agents i output acc.
Proof.
  revert i acc. induction output as [|row output IH]; intros i acc Hlen; cbn; [done|].
  cbn in Hlen. unfold index. rewrite lookup_app_l by lia.
  destruct (row !! 0) as [team|]; cbn; [|done].
  destruct (agents !! i) as [agent|]; cbn; [|done].
  apply IH. lia.
Qed.

(** X8.  The merge tolerates agents in excess: when the library names at
    least as many agents as it reads rows, the agents beyond the last row are
    never looked at, and the rows written are those of the first agents. *)
Theorem surplus_agents_ignored (current_date : string)
    (x : extraction) (extra : list string) :
  length (output x) ≤ length (agents x) →
  clean_output current_date
    {| map_name := map_name x; agents := agents x ++ extra; output := output x |}
  = clean_output current_date x.
Proof.
  intros Hlen. unfold clean_output. cbn [map_name agents output].
  by rewrite merge_surplus.
Qed.

Lemma surplus_agents_ignored_witness :
  let x := {| map_name := "Ascent"; agents := ["Jett"];
              output := [["team1"; "10"; "2"; "5"]] |} in
  clean_output "01/01/2024"
    {| map_name := "Ascent"; agents := ["Jett"] ++ ["Sova"; "Omen"];
       output := [["team1"; "10"; "2"; "5"]] |}
  = clean_output "01/01/2024" x.
Proof.
  intros x.
  apply (surplus_agents_ignored "01/01/2024" x ["Sova"; "Omen"]).
  cbn. lia.
Defined.

(** ** The subscripts of the two comprehensions *)

(** X9.  Once the merge has returned, the filter of line 162 and the
    clean-up of line 170 cannot raise: every merged row has the four fields
    their subscripts read.  So the only exceptions of lines 150-170 are the
    [IndexError] of [row[0]] on an empty raw row and that of [agents[i]] on
    too few agents; and the rows written are never more than the raw rows. *)
Theorem comprehensions_never_raise (current_date map_name : string)
    (agents : list string) (output : table) :
  (∀ merged_output,
     merge current_date map_name agents 0 output [] = Ok merged_output →
     Forall (λ row, 4 ≤ length row) merged_output
     ∧ ∃ filtered_output clean_rows,
         filter_team1 merged_output = Ok filtered_output
         ∧ clean filtered_output = Ok clean_rows
         ∧ length clean_rows = length filtered_output
         ∧ length filtered_output ≤ length output)
  ∧ (∀ e,
       merge current_date map_name agents 0 output [] = Raise e →
       (e = IndexError 153 ∧ [] ∈ output)
       ∨ (e = IndexError 157 ∧ length agents < length output)).
Proof.
  split.
  - intros merged Hm.
    pose proof (merge_inv _ _ _ _ _ _ _ Hm) as [Hrows Hlen].
    rewrite Nat.sub_0_r in Hlen.
    rewrite merge_ok in Hm by done. injection Hm as <-. cbn [app].
    rewrite drop_0. split.
    + apply Forall_fmap, Forall_forall. intros [row agent] _. cbn. lia.
    + eexists _, _. split_and!.
      * apply filter_team1_enriched.
      * apply clean_enriched.
      * by rewrite !length_fmap.
      * rewrite length_fmap.
        etrans; [apply length_filter|]. rewrite length_zip. lia.
  - intros e He. by apply merge_raises in He.
Qed.

Lemma comprehensions_never_raise_witness :
  ∃ filtered_output clean_rows,
    filter_team1 [["01/01/2024"; "team1"; "Ascent"; "Jett"; "10"];
                  ["01/01/2024"; "team2"; "Ascent"; "Sova"; "8"]] = Ok filtered_output
    ∧ clean filtered_output = Ok clean_rows
    ∧ length clean_rows = length filtered_output
    ∧ length filtered_output ≤ 2.
Proof.
  apply (proj1 (comprehensions_never_raise "01/01/2024" "Ascent" ["Jett"; "Sova"]
                  [["team1"; "10"]; ["team2"; "8"]])).
  reflexivity.
Defined.

(** ** config_parser.py on its own *)

(** X3.  [read_config] only reads: whatever it returns or raises, the files
    and the console are as before.  On a missing [config.ini] it does not
    raise for the file ([ConfigParser.read] skips it) but for the section:
    [NoSectionError] for [General]. *)
Theorem read_config_only_reads (w : world) :
  (read_config w).2 = w
  ∧ (config_ini w = None → (read_config w).1 = Raise (NoSectionError "General")).
Proof.
  unfold read_config, ConfigParser_read.
  destruct w as [? ? ? [[|c]|] ? ? ? ? ? ? ? ? ?]; world_norm.
  - done.
  - split; [|done].
    destruct (ConfigParser_get c "General" "maps") as [e|text]; [done|].
    by destruct (Json.loads text).
  - done.
Qed.

Lemma read_config_only_reads_witness :
  (read_config (Stub.machine None)).1 = Raise (NoSectionError "General").
Proof. apply (proj2 (read_config_only_reads (Stub.machine None))). reflexivity. Defined.


(** ** The files the loop takes *)

Lemma string_app_cons (x : ascii) (a b : string) :
  String x a +:+ b = String x (a +:+ b).
Proof. reflexivity. Qed.

Lemma string_app_assoc (a b c : string) : (a +:+ b) +:+ c = a +:+ b +:+ c.
Proof. induction a as [|x a IH]; [done|]. by rewrite !string_app_cons, IH. Qed.

Lemma string_length_app (a b : string) :
  String.length (a +:+ b) = String.length a + String.length b.
Proof. induction a as [|x a IH]; [done|]. rewrite string_app_cons. cbn. by rewrite IH. Qed.

Lemma lower_app (a b : string) : lower (a +:+ b) = lower a +:+ lower b.
Proof.
  induction a as [|x a IH]; [done|].
  rewrite string_app_cons. cbn [lower]. by rewrite string_app_cons, IH.
Qed.

Lemma length_lower (s : string) : String.length (lower s) = String.length s.
Proof. induction s as [|x s IH]; simpl; [done|]. by f_equal. Qed.

Lemma substring_skip (a b : string) (k : nat) :
  String.substring (String.length a) k (a +:+ b) = String.substring 0 k b.
Proof. induction a as [|x a IH]; [done|]. rewrite string_app_cons. apply IH. Qed.

Lemma string_split_at (s : string) (m : nat) :
  m ≤ String.length s →
  ∃ a b, s = a +:+ b ∧ String.length a = m.
Proof.
  revert m. induction s as [|x s IH]; intros m Hm; cbn in Hm.
  - exists EmptyString, EmptyString. split; [done | cbn; lia].
  - destruct m as [|m].
    + by exists EmptyString, (String x s).
    + destruct (IH m) as (a & b & -> & Ha); [lia|].
      exists (String x a), b. split; [done | cbn; lia].
Qed.

Lemma lower_char_dot (c : ascii) : lower_char c = "."%char ↔ c = "."%char.
Proof.
  split; [|by intros ->].
  destruct c as [[] [] [] [] [] [] [] []]; by vm_compute.
Qed.

Lemma lower_char_letter (c : ascii) :
  (lower_char c = "p"%char ↔ c = "p"%char ∨ c = "P"%char)
  ∧ (lower_char c = "n"%char ↔ c = "n"%char ∨ c = "N"%char)
  ∧ (lower_char c = "g"%char ↔ c = "g"%char ∨ c = "G"%char).
Proof.
  split_and!; (split; [|by intros [-> | ->]]);
    destruct c as [[] [] [] [] [] [] [] []]; vm_compute; intros [=]; auto.
Qed.

(** The test of line 122 on one name. *)
Lemma endswith_png (f : string) :
  endswith (lower f) ".png" = true ↔
  ∃ stem a b c,
    f = stem +:+ String "."%char (String a (String b (String c EmptyString)))
    ∧ (a = "p"%char ∨ a = "P"%char)
    ∧ (b = "n"%char ∨ b = "N"%char)
    ∧ (c = "g"%char ∨ c = "G"%char).
Proof.
  unfold endswith. rewrite length_lower. cbn [String.length].
  rewrite andb_true_iff, Nat.leb_le, String.eqb_eq. split.
  - intros [Hlen Hsuffix].
    destruct (string_split_at f (String.length f - 4)) as (stem & t & -> & Hstem);
      [lia|].
    rewrite string_length_app in Hlen, Hsuffix, Hstem.
    rewrite lower_app in Hsuffix.
    replace (String.length stem + String.length t - 4) with (String.length (lower stem))
      in Hsuffix by (rewrite length_lower; lia).
    rewrite substring_skip in Hsuffix.
    destruct t as [|d [|a [|b [|c [|x t]]]]]; cbn in Hstem, Hlen; try lia.
    cbn in Hsuffix. injection Hsuffix as Hd Ha Hb Hc.
    apply lower_char_dot in Hd as ->.
    exists stem, a, b, c. split; [done|].
    split_and!; by apply lower_char_letter.
  - intros (stem & a & b & c & -> & Ha & Hb & Hc).
    rewrite string_length_app. cbn [String.length]. split; [lia|].
    rewrite lower_app.
    replace (String.length stem + 4 - 4) with (String.length (lower stem))
      by (rewrite length_lower; lia).
    rewrite substring_skip. cbn.
    apply lower_char_letter in Ha as ->. apply lower_char_letter in Hb as ->.
    by apply lower_char_letter in Hc as ->.
Qed.

(** X6.  A name of the folder is processed exactly when it ends with a full
    stop followed by the letters p, n, g, each in either case: [shot.png],
    [SHOT.PNG], [a.Png] and the bare [.png] are taken, [png], [a.png.bak] and
    [a.jpg] are not.  The names taken keep the order of the listing. *)
Theorem png_files_spec (listing : list string) :
  (∀ f,
     f ∈ png_files listing ↔
     f ∈ listing
     ∧ ∃ stem a b c,
         f = stem +:+ String "."%char (String a (String b (String c EmptyString)))
         ∧ (a = "p"%char ∨ a = "P"%char)
         ∧ (b = "n"%char ∨ b = "N"%char)
         ∧ (c = "g"%char ∨ c = "G"%char))
  ∧ png_files listing `sublist_of` listing.
Proof.
  split.
  - intros f. unfold png_files. rewrite list_elem_of_filter, Is_true_true.
    rewrite endswith_png. tauto.
  - apply sublist_filter.
Qed.

(** ** The names of the maps *)

Lemma scanstring_plain (name rest : string) (fuel : nat) :
  plain name = true →
  String.length name < fuel →
  Json.scanstring fuel (name +:+ String Json.quote rest) = Some (name, rest).
Proof.
  revert fuel. induction name as [|c name IH]; intros fuel Hplain Hfuel.
  - destruct fuel as [|fuel]; [cbn in Hfuel; lia|]. reflexivity.
  - destruct fuel as [|fuel]; [cbn in Hfuel; lia|].
    cbn [plain] in Hplain.
    apply andb_true_iff in Hplain as [Hplain Hrest].
    apply andb_true_iff in Hplain as [Hplain Hctl].
    apply andb_true_iff in Hplain as [Hquote Hback].
    apply negb_true_iff in Hquote, Hback.
    rewrite string_app_cons. cbn [Json.scanstring].
    rewrite Hquote, Hback.
    replace (nat_of_ascii c <? 32) with false
      by (symmetry; apply Nat.ltb_ge; by apply Nat.leb_le).
    rewrite IH by (cbn in Hfuel; done || lia). reflexivity.
Qed.

Lemma scan_once_quoted (name rest : string) (fuel : nat) :
  plain name = true →
  Json.scan_once (S fuel) (quoted name +:+ rest) = Some (JString name, rest).
Proof.
  intros Hplain. unfold quoted.
  rewrite string_app_cons, string_app_assoc, string_app_cons.
  change (EmptyString +:+ rest) with rest.
  cbn [Json.scan_once]. unfold Json.quote at 1. cbn match.
  unfold Json.parse_string.
  rewrite scanstring_plain; [done | done |].
  rewrite string_length_app. lia.
Qed.

Lemma skip_ws_quoted (name rest : string) :
  Json.skip_ws (quoted name +:+ rest) = quoted name +:+ rest.
Proof. reflexivity. Qed.

Lemma concat_names_cons (name next : string) (names : list string) :
  String.concat ", " (quoted <$> name :: next :: names) =
  quoted name +:+ ", " +:+ String.concat ", " (quoted <$> next :: names).
Proof. reflexivity. Qed.

Lemma concat_names_quoted (name : string) (names : list string) :
  ∃ rest, String.concat ", " (quoted <$> name :: names) = quoted name +:+ rest.
Proof.
  destruct names as [|next names].
  - exists EmptyString. cbn. induction (quoted name) as [|x q IH]; [done|].
    by rewrite string_app_cons, <- IH.
  - rewrite concat_names_cons. by eexists.
Qed.

(** The loop of [JSONArray] on the quoted names. *)
Lemma array_items_names (names : list string) (name tail : string)
    (acc : list json) (fuel k : nat) :
  Forall (λ n, plain n = true) (name :: names) →
  length names < fuel →
  Json.array_items (Json.scan_once (S k)) fuel
    (String.concat ", " (quoted <$> name :: names) +:+ "]" +:+ tail) acc =
  Some (JArray (acc ++ (JString <$> name :: names)), tail).
Proof.
  revert name acc fuel. induction names as [|next names IH];
    intros name acc fuel Hplain Hfuel;
    (destruct fuel as [|fuel]; [cbn in Hfuel; lia|]);
    apply Forall_cons in Hplain as [Hname Hplain].
  - cbn [fmap list_fmap String.concat Json.array_items].
    rewrite scan_once_quoted by done. reflexivity.
  - rewrite concat_names_cons, !string_app_assoc.
    cbn [Json.array_items]. rewrite scan_once_quoted by done.
    cbn [mbind option_bind].
    change (Json.skip_ws (", " +:+ ?r)) with (", " +:+ r).
    rewrite !string_app_cons. change (EmptyString +:+ ?r) with r.
    cbn match.
    destruct (concat_names_quoted next names) as [rest Hrest].
    assert (Hskip : ∀ r, Json.skip_ws (String " "%char r) = Json.skip_ws r)
      by reflexivity.
    rewrite Hskip, Hrest, string_app_assoc, skip_ws_quoted.
    rewrite <- string_app_assoc, <- Hrest.
    rewrite IH; [|done|cbn in Hfuel; lia].
    by rewrite <- app_assoc.
Qed.

Lemma length_concat_names (names : list string) :
  length names ≤ String.length (String.concat ", " (quoted <$> names)).
Proof.
  induction names as [|name [|next names] IH]; [cbn; lia | |].
  - cbn. unfold quoted. cbn. lia.
  - rewrite concat_names_cons, !string_length_app.
    cbn [length] in *. unfold quoted at 1. cbn [String.length]. lia.
Qed.

Lemma parse_array_items (scan : string → option (json * string)) (fuel : nat)
    (s r : string) :
  s = String Json.quote r →
  Json.parse_array scan fuel s = Json.array_items scan fuel s [].
Proof. by intros ->. Qed.

Lemma scan_once_bracket (fuel : nat) (r : string) :
  Json.scan_once (S fuel) (String "["%char r) =
  Json.parse_array (Json.scan_once fuel) fuel r.
Proof. reflexivity. Qed.

Lemma loads_json_names (names : list string) :
  Forall (λ n, plain n = true) names →
  Json.loads (json_names names) = Ok (JArray (JString <$> names)).
Proof.
  intros Hplain. unfold Json.loads, json_names.
  set (text := String.concat ", " (quoted <$> names)).
  change ("[" +:+ text +:+ "]") with (String "["%char (text +:+ "]" +:+ EmptyString)).
  change (Json.skip_ws (String "["%char ?r)) with (String "["%char r).
  cbn [String.length]. rewrite scan_once_bracket.
  destruct names as [|name names]; [reflexivity|].
  assert (Hquote : ∃ r, text +:+ "]" +:+ EmptyString = String Json.quote r).
  { subst text. destruct (concat_names_quoted name names) as [rest ->].
    unfold quoted. rewrite !string_app_cons. by eexists. }
  destruct Hquote as [r Hr].
  rewrite (parse_array_items _ _ _ r Hr).
  pose proof (length_concat_names (name :: names)) as Hlen. fold text in Hlen.
  rewrite string_length_app.
  destruct (String.length text) as [|k]; [cbn in Hlen; lia|].
  cbn [Nat.add]. subst text.
  rewrite array_items_names; [reflexivity | done | cbn in Hlen; lia].
Qed.

(** X5.  A [config.ini] whose [maps] option is the JSON array of quoted
    names (names without double quote, backslash or control character,
    separated by a comma and a blank) loads as exactly these names, in their
    order, however many and however long: [read_config] returns them as a
    sequence of strings and changes nothing. *)
Theorem maps_names_round_trip (w : world) (c : ConfigParser) (names : list string) :
  Forall (λ n, plain n = true) names →
  config_ini w = Some (Parsable c) →
  ConfigParser_get c "General" "maps" = Ok (json_names names) →
  read_config w = (Ok {| maps := JArray (JString <$> names) |}, w)
  ∧ is_string_list (JArray (JString <$> names)) = true.
Proof.
  intros Hplain Hcfg Hget. split.
  - rewrite read_config_eq by (by eexists).
    unfold loaded_maps. rewrite Hcfg, Hget. cbn [mbind result_bind].
    by rewrite loads_json_names.
  - cbn. clear. induction names as [|name names IH]; [done|]. cbn. apply IH.
Qed.

Lemma maps_names_round_trip_witness :
  let names := ["Ascent"; "Bind"; "Ice Box"; "Le Havre (1944)"] in
  let w := set_config_ini (Some (Stub.config_with (json_names names)))
             (Stub.machine None) in
  read_config w = (Ok {| maps := JArray (JString <$> names) |}, w)
  ∧ is_string_list (JArray (JString <$> names)) = true.
Proof.
  intros names w.
  apply (maps_names_round_trip w
           {| defaults := ∅; sections := {[ "General" := {[ "maps" := json_names names ]} ]} |}
           names); [|reflexivity|reflexivity].
  repeat constructor.
Defined.
